(** * Cake Time: the birthday countdown of [HasBirthdayLaunchRequestHandler]

    A shallow embedding of [lambda/lambda_function.py].  The handler reads
    the stored birthday, asks the Alexa Settings API for the time zone of the
    device, takes the calendar date of "now" in that zone and speaks either a
    birthday greeting or a countdown to the next birthday.

    The Python values the handler works on are modelled as follows.
    - [int] is [Z].
    - [str] is [string]; a character is a code point below 256.  The case
      mappings are those of the ASCII letters, and other characters are left
      as they are.  The month table holds ASCII letters only, so this is
      what the lookup of the month sees.
    - [datetime] values built from a year, a month and a day are records of
      these three fields; the constructor checks the fields as Python does.
    - A raised exception is the [Raise] result of a computation. *)

From Stdlib Require Import ZArith List String Ascii Bool Lia.
Import ListNotations.

Local Open Scope string_scope.
Local Open Scope Z_scope.

(** ** Exceptions and results *)

Inductive exn : Type :=
| ValueError
| IndexError
| UnknownTimeZoneError
| RequestException.

Inductive result (A : Type) : Type :=
| Ok (a : A)
| Raise (e : exn).

Arguments Ok {A} a.
Arguments Raise {A} e.

Definition bind {A B : Type} (c : result A) (k : A -> result B) : result B :=
  match c with
  | Ok a => k a
  | Raise e => Raise e
  end.

Declare Scope py_scope.
Delimit Scope py_scope with py.
Notation "x <- c ;; k" := (bind c (fun x => k))
  (at level 61, c at next level, right associativity) : py_scope.
Local Open Scope py_scope.

(** ** Python strings *)

Module PyStr.

Definition code (c : ascii) : N := N_of_ascii c.

Definition isupper (c : ascii) : bool := (65 <=? code c)%N && (code c <=? 90)%N.
Definition islower (c : ascii) : bool := (97 <=? code c)%N && (code c <=? 122)%N.
Definition iscased (c : ascii) : bool := isupper c || islower c.

Definition upper_char (c : ascii) : ascii :=
  if islower c then ascii_of_N (code c - 32) else c.
Definition lower_char (c : ascii) : ascii :=
  if isupper c then ascii_of_N (code c + 32) else c.

(** [s.lower()] *)
Fixpoint lower (s : string) : string :=
  match s with
  | EmptyString => EmptyString
  | String c r => String (lower_char c) (lower r)
  end.

(** [s.title()]: a cased character is put in upper case when the character
    before it is not cased (or there is none), in lower case otherwise. *)
Fixpoint title_from (previous_is_cased : bool) (s : string) : string :=
  match s with
  | EmptyString => EmptyString
  | String c r =>
      if iscased c
      then String (if previous_is_cased then lower_char c else upper_char c)
                  (title_from true r)
      else String c (title_from false r)
  end.

Definition title (s : string) : string := title_from false s.

(** [s[:n]] for [n >= 0] *)
Fixpoint slice_to (n : nat) (s : string) : string :=
  match n, s with
  | S k, String c r => String c (slice_to k r)
  | _, _ => EmptyString
  end.

(** [s[-1]], which raises IndexError on the empty string *)
Fixpoint last_char (s : string) : result ascii :=
  match s with
  | EmptyString => Raise IndexError
  | String c EmptyString => Ok c
  | String _ r => last_char r
  end.

(** [s.startswith(p)] *)
Fixpoint startswith (p s : string) : bool :=
  match p, s with
  | EmptyString, _ => true
  | String a p', String b s' => Ascii.eqb a b && startswith p' s'
  | String _ _, EmptyString => false
  end.

(** [s.replace(old, new)]: every occurrence of [old], found from the left
    and not overlapping an earlier one, becomes [new].  [skip] counts the
    characters of an occurrence that remain to be dropped. *)
Fixpoint replace_from (old new : string) (skip : nat) (s : string) : string :=
  match s with
  | EmptyString => EmptyString
  | String c r =>
      match skip with
      | S k => replace_from old new k r
      | O =>
          if startswith old s
          then new ++ replace_from old new (String.length old - 1) r
          else String c (replace_from old new O r)
      end
  end.

(** With an empty [old], Python puts [new] before every character and at
    the end. *)
Fixpoint intersperse (new s : string) : string :=
  match s with
  | EmptyString => new
  | String c r => new ++ String c (intersperse new r)
  end.

Definition replace (old new s : string) : string :=
  match old with
  | EmptyString => intersperse new s
  | String _ _ => replace_from old new O s
  end.

(** [str(n)] for an [int]: the decimal digits, after a minus sign when
    [n] is negative. *)
Definition digit_char (d : Z) : ascii := ascii_of_N (48 + Z.to_N d).

Fixpoint digits (fuel : nat) (n : Z) : string :=
  match fuel with
  | O => EmptyString
  | S f =>
      if n <? 10 then String (digit_char n) EmptyString
      else digits f (n / 10) ++ String (digit_char (n mod 10)) EmptyString
  end.

Definition str_nonneg (n : Z) : string := digits (S (Z.to_nat (Z.log2 n))) n.

Definition str (n : Z) : string :=
  if n <? 0 then String "-" (str_nonneg (- n)) else str_nonneg n.

(** The value of a string of decimal digits, most significant first. *)
Definition digit_value (c : ascii) : Z := Z.of_N (code c) - 48.

Fixpoint digits_value (acc : Z) (s : string) : Z :=
  match s with
  | EmptyString => acc
  | String c r => digits_value (10 * acc + digit_value c) r
  end.

(** [xs.index(x)] on a list of strings, which raises ValueError when [x]
    is not in [xs]. *)
Fixpoint index_from (i : Z) (xs : list string) (x : string) : result Z :=
  match xs with
  | [] => Raise ValueError
  | y :: r => if String.eqb y x then Ok i else index_from (i + 1) r x
  end.

Definition index (xs : list string) (x : string) : result Z := index_from 0 xs x.

End PyStr.


(** ** Python dates

    The date part of [datetime]: the checks of the constructor, the
    comparison and the day count of a difference are those of the standard
    library ([_is_leap], [_days_before_year], [_days_in_month],
    [_days_before_month], [_ymd2ord]). *)

Module Datetime.

Definition MINYEAR : Z := 1.
Definition MAXYEAR : Z := 9999.

Record datetime : Type := mk { year : Z; month : Z; day : Z }.

Definition is_leap (y : Z) : bool :=
  (y mod 4 =? 0) && (negb (y mod 100 =? 0) || (y mod 400 =? 0)).

Definition DAYS_IN_MONTH : list Z :=
  [-1; 31; 28; 31; 30; 31; 30; 31; 31; 30; 31; 30; 31].

Definition DAYS_BEFORE_MONTH : list Z :=
  [-1; 0; 31; 59; 90; 120; 151; 181; 212; 243; 273; 304; 334].

Definition days_before_year (y : Z) : Z :=
  let y := y - 1 in y * 365 + y / 4 - y / 100 + y / 400.

Definition days_in_month (y m : Z) : Z :=
  if (m =? 2) && is_leap y then 29 else nth (Z.to_nat m) DAYS_IN_MONTH 0.

Definition days_before_month (y m : Z) : Z :=
  nth (Z.to_nat m) DAYS_BEFORE_MONTH 0 + (if (2 <? m) && is_leap y then 1 else 0).

Definition ymd2ord (y m d : Z) : Z :=
  days_before_year y + days_before_month y m + d.

(** [datetime(y, m, d)] *)
Definition new (y m d : Z) : result datetime :=
  if negb ((MINYEAR <=? y) && (y <=? MAXYEAR)) then Raise ValueError
  else if negb ((1 <=? m) && (m <=? 12)) then Raise ValueError
  else if negb ((1 <=? d) && (d <=? days_in_month y m)) then Raise ValueError
  else Ok (mk y m d).

Definition toordinal (a : datetime) : Z := ymd2ord (year a) (month a) (day a).

(** [a > b]: the fields are compared in the order year, month, day. *)
Definition gt (a b : datetime) : bool :=
  (year b <? year a)
  || ((year a =? year b)
      && ((month b <? month a)
          || ((month a =? month b) && (day b <? day a)))).

(** [a != b] *)
Definition ne (a b : datetime) : bool :=
  negb ((year a =? year b) && (month a =? month b) && (day a =? day b)).

(** [(a - b).days], both at midnight *)
Definition sub_days (a b : datetime) : Z := toordinal a - toordinal b.

(** A date that the constructor accepts. *)
Definition valid (a : datetime) : Prop := new (year a) (month a) (day a) = Ok a.

(** The number of days of a year. *)
Definition days_in_year (y : Z) : Z := if is_leap y then 366 else 365.

End Datetime.

(** ** The month tables of [calendar] (English) *)

Module Calendar.

Definition month_abbr : list string :=
  [""; "Jan"; "Feb"; "Mar"; "Apr"; "May"; "Jun";
   "Jul"; "Aug"; "Sep"; "Oct"; "Nov"; "Dec"].

Definition month_name : list string :=
  [""; "January"; "February"; "March"; "April"; "May"; "June";
   "July"; "August"; "September"; "October"; "November"; "December"].

End Calendar.

(** ** The skill *)

(** A JSON value: what [r.json()] and [json.load] return. *)
#[warnings="-register-all"]
Inductive json : Type :=
| JNull
| JBool (b : bool)
| JNumber (n : Z)
| JString (s : string)
| JArray (xs : list json)
| JObject (fields : list (string * json)).

(** The persistent attributes once [handle] has read them: [year] and [day]
    after [int(...)], [month] as it is stored. *)
Record BirthRecord : Type := {
  birth_year : Z;
  birth_month : string;
  birth_day : Z
}.

Record RenderDocumentDirective : Type := {
  token : string;
  document : json;
  datasources : json
}.

(** What the response builder holds; [response] hands it out. *)
Record Response : Type := {
  speech : option string;
  reprompt : option string;
  directives : list RenderDocumentDirective
}.

Definition empty_response : Response :=
  {| speech := None; reprompt := None; directives := [] |}.

(** What the handler reads from the request. *)
Record HandlerInput : Type := {
  persistent_attributes : BirthRecord;
  device_id : string;
  api_endpoint : string;
  api_access_token : string;
  supports_apl : bool
}.

(** What the handler reads from outside the request: the Settings API, the
    clock and the APL documents shipped with the skill. *)
Record World : Type := {
  (** [requests.get(url, headers=headers).json()] *)
  requests_get_json : string -> list (string * string) -> result json;
  (** [datetime.now(timezone(zone))], year, month and day *)
  datetime_now : json -> result Datetime.datetime;
  (** the APL documents in the directory of the skill, by file name *)
  apl_files : string -> json
}.

(** [_load_apl_document(file_path)] *)
Definition _load_apl_document (w : World) (file_path : string) : json :=
  apl_files w file_path.

Inductive LogRecord : Type :=
| DeviceApiResult (res : json)
| ErrorRecord (e : exn).

(** What a handler changes: the response builder, the requests sent and
    the log. *)
Record State : Type := {
  response_builder : Response;
  requests_sent : list (string * list (string * string));
  log : list LogRecord
}.

Definition initial_state : State :=
  {| response_builder := empty_response; requests_sent := []; log := [] |}.

(** Handlers run in a state monad with exceptions; the state survives a
    raise. *)
Definition M (A : Type) : Type := State -> result A * State.

Definition ret {A : Type} (a : A) : M A := fun s => (Ok a, s).

Definition mbind {A B : Type} (c : M A) (k : A -> M B) : M B :=
  fun s =>
    match c s with
    | (Ok a, s') => k a s'
    | (Raise e, s') => (Raise e, s')
    end.

Definition lift {A : Type} (r : result A) : M A := fun s => (r, s).

(** [try: body  except Exception: handler] *)
Definition try_except {A : Type} (body handler : M A) : M A :=
  fun s =>
    match body s with
    | (Ok a, s') => (Ok a, s')
    | (Raise _, s') => handler s'
    end.

Declare Scope handler_scope.
Delimit Scope handler_scope with handler.
Notation "x <~ c ;; k" := (mbind c (fun x => k))
  (at level 61, c at next level, right associativity) : handler_scope.
Notation "c ;;; k" := (mbind c (fun _ => k))
  (at level 61, right associativity) : handler_scope.
Local Open Scope handler_scope.

Definition speak (text : string) : M unit :=
  fun s =>
    (Ok tt,
     {| response_builder :=
          {| speech := Some text;
             reprompt := reprompt (response_builder s);
             directives := directives (response_builder s) |};
        requests_sent := requests_sent s;
        log := log s |}).

Definition add_directive (d : RenderDocumentDirective) : M unit :=
  fun s =>
    (Ok tt,
     {| response_builder :=
          {| speech := speech (response_builder s);
             reprompt := reprompt (response_builder s);
             directives := directives (response_builder s) ++ [d] |};
        requests_sent := requests_sent s;
        log := log s |}).

Definition response : M Response := fun s => (Ok (response_builder s), s).

Definition logger (r : LogRecord) : M unit :=
  fun s =>
    (Ok tt,
     {| response_builder := response_builder s;
        requests_sent := requests_sent s;
        log := log s ++ [r] |}).

Definition requests_get (w : World) (url : string) (headers : list (string * string))
  : M json :=
  fun s =>
    (requests_get_json w url headers,
     {| response_builder := response_builder s;
        requests_sent := requests_sent s ++ [(url, headers)];
        log := log s |}).

(** *** [HasBirthdayLaunchRequestHandler] *)

Module HasBirthdayLaunchRequestHandler.

(** From the month string to the month index (line 198) *)

Definition month_as_index (month : string) : result Z :=
  PyStr.index Calendar.month_abbr (PyStr.title (PyStr.slice_to 3 month)).

(** The ordinal of the age (lines 215 to 222) *)

Definition ordinal_of (age : string) : result string :=
  (c <- PyStr.last_char age ;;
   if Ascii.eqb c "1" then Ok "st"
   else if Ascii.eqb c "2" then Ok "nd"
   else if Ascii.eqb c "3" then Ok "rd"
   else Ok "th")%py.

(** The countdown (lines 194 to 253).

    The local variables of [handle] when it reaches line 255.  [diff_days]
    is bound only when today is not the birthday. *)
Record Locals : Type := {
  now_date : Datetime.datetime;
  month_index : Z;
  next_birthday : Datetime.datetime;
  current_year : Z;
  age : string;
  ordinal : string;
  diff_days : option Z;
  speak_output : string;
  display_directive : RenderDocumentDirective
}.

Definition apl_directive (w : World) (data : string) : RenderDocumentDirective :=
  {| token := "pagerToken";
     document := _load_apl_document w "launchDocument.json";
     datasources := _load_apl_document w data |}.

Definition countdown (w : World) (rec : BirthRecord) (now_time : Datetime.datetime)
  : result Locals :=
  let year := birth_year rec in
  let month := birth_month rec in
  let day := birth_day rec in
  (now_date <- Datetime.new (Datetime.year now_time) (Datetime.month now_time)
                            (Datetime.day now_time) ;;
   let current_year := Datetime.year now_time in
   month_as_index <- month_as_index month ;;
   next_birthday <- Datetime.new current_year month_as_index day ;;
   next <- (if Datetime.gt now_date next_birthday
            then (next_birthday <- Datetime.new (current_year + 1) month_as_index day ;;
                  Ok (next_birthday, current_year + 1))
            else Ok (next_birthday, current_year)) ;;
   let next_birthday := fst next in
   let current_year := snd next in
   let age := PyStr.str (current_year - year) in
   ordinal <- ordinal_of age ;;
   let speak_output := "Happy " ++ age ++ ordinal ++ " birthday!" in
   let display_directive := apl_directive w "hasBirthdayDataSources.json" in
   if Datetime.ne now_date next_birthday
   then
     let diff_days := Z.abs (Datetime.sub_days now_date next_birthday) in
     let speak_output :=
       "Welcome back. It looks like there are " ++ PyStr.str diff_days
       ++ " days until your " ++ age ++ ordinal ++ " birthday" in
     let speak_output :=
       if diff_days =? 1
       then PyStr.replace "days" "day" (PyStr.replace "are" "is" speak_output)
       else speak_output in
     let display_directive := apl_directive w "birthdayCountdownDataSources.json" in
     Ok {| now_date := now_date; month_index := month_as_index;
           next_birthday := next_birthday; current_year := current_year;
           age := age; ordinal := ordinal; diff_days := Some diff_days;
           speak_output := speak_output; display_directive := display_directive |}
   else
     Ok {| now_date := now_date; month_index := month_as_index;
           next_birthday := next_birthday; current_year := current_year;
           age := age; ordinal := ordinal; diff_days := None;
           speak_output := speak_output; display_directive := display_directive |})%py.

(** The handler (lines 146 to 261) *)

Definition settings_url (hi : HandlerInput) : string :=
  api_endpoint hi ++ "/v2/devices/" ++ device_id hi ++ "/settings/System.timeZone".

Definition settings_headers (hi : HandlerInput) : list (string * string) :=
  [("Authorization", "Bearer " ++ api_access_token hi)].

Definition connection_problem : string :=
  "There was a problem connecting to the service".

Definition handle (w : World) (hi : HandlerInput) : M Response :=
  let attr := persistent_attributes hi in
  let url := settings_url hi in
  let headers := settings_headers hi in
  (* [None] stands for the return inside the except block *)
  zone <~ try_except
            (res <~ requests_get w url headers ;;
             logger (DeviceApiResult res) ;;;
             ret (Some res))
            (speak connection_problem ;;;
             ret None) ;;
  match zone with
  | None => response
  | Some userTimeZone =>
      now_time <~ lift (datetime_now w userTimeZone) ;;
      l <~ lift (countdown w attr now_time) ;;
      speak (speak_output l) ;;;
      (if supports_apl hi then add_directive (display_directive l) else ret tt) ;;;
      response
  end.

End HasBirthdayLaunchRequestHandler.

(** *** [CatchAllExceptionHandler] *)

Module CatchAllExceptionHandler.

Definition sorry : string :=
  "Sorry, I had trouble doing what you asked. Please try again.".

Definition handle (exception : exn) : M Response :=
  logger (ErrorRecord exception) ;;;
  speak sorry ;;;
  response.

End CatchAllExceptionHandler.

Import HasBirthdayLaunchRequestHandler.

(** *** The launch of the skill when a birthday is stored: the request goes
    to [HasBirthdayLaunchRequestHandler], the first handler of the chain,
    and what it raises goes to [CatchAllExceptionHandler]. *)

Definition launch_with_birthday (w : World) (hi : HandlerInput) : M Response :=
  fun s =>
    match handle w hi s with
    | (Ok r, s') => (Ok r, s')
    | (Raise e, s') => CatchAllExceptionHandler.handle e s'
    end.

(** What the user hears. *)
Definition spoken (r : result Response * State) : option string :=
  match fst r with
  | Ok resp => speech resp
  | Raise _ => None
  end.

(** ** The whole skill

    The other handlers of the file, the request handler chain and the
    entry point [lambda_handler].  A request is served in a fresh handler
    state; the S3 bucket is what lasts from one request to the next. *)

(** What the other handlers and the dispatcher raise, next to the
    exceptions of the countdown. *)
Inductive fault : Type :=
| Python (e : exn)
| KeyError
| TypeError
| AttributeError
| PersistenceException
| DispatchException.

Inductive fallible (A : Type) : Type :=
| Done (a : A)
| Fault (f : fault).

Arguments Done {A} a.
Arguments Fault {A} f.

(** A dictionary from names to strings or [None]: the persistent
    attributes, and the slots of an intent with their values. *)
Definition attributes : Type := list (string * option string).

(** [d.get(key)], with [None] for a missing key only *)
Fixpoint lookup (key : string) (d : attributes) : option (option string) :=
  match d with
  | [] => None
  | (k, v) :: rest => if String.eqb k key then Some v else lookup key rest
  end.

(** [key in d] *)
Definition contains (key : string) (d : attributes) : bool :=
  match lookup key d with
  | Some _ => true
  | None => false
  end.

Inductive Request : Type :=
| LaunchRequest
| IntentRequest (name : string) (slots : option attributes)
| SessionEndedRequest
| OtherRequest (type : string).

Definition object_type (r : Request) : string :=
  match r with
  | LaunchRequest => "LaunchRequest"
  | IntentRequest _ _ => "IntentRequest"
  | SessionEndedRequest => "SessionEndedRequest"
  | OtherRequest type => type
  end.

Record RequestEnvelope : Type := {
  request : Request;
  system_device_id : string;
  system_api_endpoint : string;
  system_api_access_token : string;
  (** [get_supported_interfaces(handler_input).alexa_presentation_apl is not None] *)
  alexa_presentation_apl : bool
}.

(** [ask_utils.is_request_type(type)(handler_input)] *)
Definition is_request_type (type : string) (env : RequestEnvelope) : bool :=
  String.eqb (object_type (request env)) type.

(** [ask_utils.is_intent_name(name)(handler_input)] *)
Definition is_intent_name (name : string) (env : RequestEnvelope) : bool :=
  match request env with
  | IntentRequest n _ => String.eqb n name
  | _ => false
  end.

(** The world of the whole skill: the world of the countdown, Python's
    [int] on a stored attribute, taken as given, and whether the S3 bucket
    can be reached. *)
Record SkillWorld : Type := {
  world : World;
  py_int : option string -> fallible Z;
  s3_up : bool
}.

Inductive SkillLogRecord : Type :=
| Info (msg : string)
| Error (f : fault).

(** The state of one request: the handler state, the attributes that the
    attributes manager holds once they are read or set, the S3 bucket and
    the log of the other handlers. *)
Record Skill : Type := {
  handler_state : State;
  cached : option attributes;
  bucket : attributes;
  skill_log : list SkillLogRecord
}.

Definition K (A : Type) : Type := Skill -> fallible A * Skill.

Definition kret {A : Type} (a : A) : K A := fun k => (Done a, k).

Definition kfault {A : Type} (f : fault) : K A := fun k => (Fault f, k).

Definition kbind {A B : Type} (c : K A) (f : A -> K B) : K B :=
  fun k =>
    match c k with
    | (Done a, k') => f a k'
    | (Fault x, k') => (Fault x, k')
    end.

Declare Scope skill_scope.
Delimit Scope skill_scope with skill.
Notation "x <~ c ;; k" := (kbind c (fun x => k))
  (at level 61, c at next level, right associativity) : skill_scope.
Notation "c ;;; k" := (kbind c (fun _ => k))
  (at level 61, right associativity) : skill_scope.

(** A step of the handler state as a step of the request. *)
Definition lift_M {A : Type} (m : M A) : K A :=
  fun k =>
    let next (s : State) : Skill :=
      {| handler_state := s; cached := cached k; bucket := bucket k;
         skill_log := skill_log k |} in
    match m (handler_state k) with
    | (Ok a, s) => (Done a, next s)
    | (Raise e, s) => (Fault (Python e), next s)
    end.

Definition skill_logger (r : SkillLogRecord) : K unit :=
  fun k =>
    (Done tt,
     {| handler_state := handler_state k; cached := cached k;
        bucket := bucket k; skill_log := skill_log k ++ [r] |}).

(** [handler_input.response_builder.ask(reprompt)] *)
Definition ask (text : string) : M unit :=
  fun s =>
    (Ok tt,
     {| response_builder :=
          {| speech := speech (response_builder s);
             reprompt := Some text;
             directives := directives (response_builder s) |};
        requests_sent := requests_sent s;
        log := log s |}).

(** [attributes_manager.persistent_attributes]: read from the bucket the
    first time, kept afterwards. *)
Definition get_persistent_attributes (sw : SkillWorld) : K attributes :=
  fun k =>
    match cached k with
    | Some attr => (Done attr, k)
    | None =>
        if s3_up sw
        then (Done (bucket k),
              {| handler_state := handler_state k; cached := Some (bucket k);
                 bucket := bucket k; skill_log := skill_log k |})
        else (Fault PersistenceException, k)
    end.

(** [attributes_manager.persistent_attributes = attr] *)
Definition set_persistent_attributes (attr : attributes) : K unit :=
  fun k =>
    (Done tt,
     {| handler_state := handler_state k; cached := Some attr;
        bucket := bucket k; skill_log := skill_log k |}).

(** [attributes_manager.save_persistent_attributes()] *)
Definition save_persistent_attributes (sw : SkillWorld) : K unit :=
  fun k =>
    match cached k with
    | None => (Done tt, k)
    | Some attr =>
        if s3_up sw
        then (Done tt,
              {| handler_state := handler_state k; cached := cached k;
                 bucket := attr; skill_log := skill_log k |})
        else (Fault PersistenceException, k)
    end.

(** [d[key]] *)
Definition getitem (d : attributes) (key : string) : K (option string) :=
  match lookup key d with
  | Some v => kret v
  | None => kfault KeyError
  end.

(** A string or [None] in a format field *)
Definition format_field (v : option string) : string :=
  match v with
  | Some s => s
  | None => "None"
  end.

(** The directive of a handler, added when the device has a screen. *)
Definition show (env : RequestEnvelope) (d : RenderDocumentDirective) : M unit :=
  if alexa_presentation_apl env then add_directive d else ret tt.

(** *** [LaunchRequestHandler] *)

Module LaunchRequestHandler.

Definition can_handle (env : RequestEnvelope) : bool :=
  is_request_type "LaunchRequest" env.

Definition handle (w : World) (env : RequestEnvelope) : M Response :=
  let speak_output := "Hello! This is Cake Time. What is your birthday?" in
  let reprompt_text := "I was born Nov. 6th, 2014. When were you born?" in
  let display_directive := apl_directive w "launchDataSources.json" in
  speak speak_output ;;;
  ask reprompt_text ;;;
  show env display_directive ;;;
  response.

End LaunchRequestHandler.

(** *** [HasBirthdayLaunchRequestHandler], from the request envelope *)

Module HasBirthdayLaunchRequest.

Definition can_handle (sw : SkillWorld) (env : RequestEnvelope) : K bool :=
  (attr <~ get_persistent_attributes sw ;;
   let attributes_are_present :=
     contains "year" attr && contains "month" attr && contains "day" attr in
   kret (attributes_are_present && is_request_type "LaunchRequest" env))%skill.

(** The handler when the stored month is [None]: it goes as far as line 198,
    where [month[:3]] raises TypeError. *)
Definition handle_without_month (w : World) (env : RequestEnvelope) : K Response :=
  let url :=
    system_api_endpoint env ++ "/v2/devices/" ++ system_device_id env
    ++ "/settings/System.timeZone" in
  let headers := [("Authorization", "Bearer " ++ system_api_access_token env)] in
  (zone <~ lift_M (try_except
                     (res <~ requests_get w url headers ;;
                      logger (DeviceApiResult res) ;;;
                      ret (Some res))%handler
                     (speak connection_problem ;;;
                      ret None)%handler) ;;
   match zone with
   | None => lift_M response
   | Some userTimeZone =>
       now_time <~ lift_M (lift (datetime_now w userTimeZone)) ;;
       lift_M (lift (Datetime.new (Datetime.year now_time)
                                  (Datetime.month now_time)
                                  (Datetime.day now_time))) ;;;
       kfault TypeError
   end)%skill.

(** Lines 148 to 151, then the handler on what they read. *)
Definition handle (sw : SkillWorld) (env : RequestEnvelope) : K Response :=
  (attr <~ get_persistent_attributes sw ;;
   year <~ (v <~ getitem attr "year" ;; fun k => (py_int sw v, k)) ;;
   month <~ getitem attr "month" ;;
   day <~ (v <~ getitem attr "day" ;; fun k => (py_int sw v, k)) ;;
   match month with
   | Some month =>
       lift_M (HasBirthdayLaunchRequestHandler.handle (world sw)
                 {| persistent_attributes :=
                      {| birth_year := year; birth_month := month;
                         birth_day := day |};
                    device_id := system_device_id env;
                    api_endpoint := system_api_endpoint env;
                    api_access_token := system_api_access_token env;
                    supports_apl := alexa_presentation_apl env |})
   | None => handle_without_month (world sw) env
   end)%skill.

End HasBirthdayLaunchRequest.

(** *** [CaptureBirthdayIntentHandler] *)

Module CaptureBirthdayIntentHandler.

Definition can_handle (env : RequestEnvelope) : bool :=
  is_intent_name "CaptureBirthdayIntent" env.

Definition handle (sw : SkillWorld) (env : RequestEnvelope) : K Response :=
  (slots <~ match request env with
            | IntentRequest _ slots => kret slots
            | _ => kfault AttributeError
            end ;;
   (* [slots[...]] on [None] raises TypeError *)
   slots <~ match slots with
            | Some slots => kret slots
            | None => kfault TypeError
            end ;;
   year <~ getitem slots "year" ;;
   month <~ getitem slots "month" ;;
   day <~ getitem slots "day" ;;
   let birthday_attributes := [("year", year); ("month", month); ("day", day)] in
   set_persistent_attributes birthday_attributes ;;;
   save_persistent_attributes sw ;;;
   let speak_output :=
     "Thanks, I will remember that you were born " ++ format_field month
     ++ " " ++ format_field day ++ " " ++ format_field year ++ "." in
   let display_directive :=
     apl_directive (world sw) "captureBirthdayDataSources.json" in
   lift_M (speak speak_output ;;;
           show env display_directive ;;;
           response)%handler)%skill.

End CaptureBirthdayIntentHandler.

(** *** [HelpIntentHandler] *)

Module HelpIntentHandler.

Definition can_handle (env : RequestEnvelope) : bool :=
  is_intent_name "AMAZON.HelpIntent" env.

Definition handle (w : World) (env : RequestEnvelope) : M Response :=
  let speak_output :=
    "If you accidentally entered the wrong birthday, you can change it by saying,                         'Alexa, tell Cake Time I was born on, and then say the month day and year of your birthday." in
  let reprompt_text := "I was born Nov. 6th, 2014. When were you born?" in
  let display_directive := apl_directive w "captureBirthdayDataSources.json" in
  speak speak_output ;;;
  ask reprompt_text ;;;
  show env display_directive ;;;
  response.

End HelpIntentHandler.

(** *** [CancelOrStopIntentHandler] *)

Module CancelOrStopIntentHandler.

Definition can_handle (env : RequestEnvelope) : bool :=
  is_intent_name "AMAZON.CancelIntent" env
  || is_intent_name "AMAZON.StopIntent" env.

Definition handle (w : World) (env : RequestEnvelope) : M Response :=
  let speak_output := "later dude!" in
  let display_directive := apl_directive w "sessionEndDataSources.json" in
  speak speak_output ;;;
  show env display_directive ;;;
  response.

End CancelOrStopIntentHandler.

(** *** [FallbackIntentHandler] *)

Module FallbackIntentHandler.

Definition can_handle (env : RequestEnvelope) : bool :=
  is_intent_name "AMAZON.FallbackIntent" env.

Definition handle (env : RequestEnvelope) : K Response :=
  (skill_logger (Info "In FallbackIntentHandler") ;;;
   let speak_output :=
     "Hmm, I'm not sure. You can say Hello or Help. What would you like to do?" in
   lift_M (speak speak_output ;;; response)%handler)%skill.

End FallbackIntentHandler.

(** *** [SessionEndedRequestHandler] *)

Module SessionEndedRequestHandler.

Definition can_handle (env : RequestEnvelope) : bool :=
  is_request_type "SessionEndedRequest" env.

Definition handle (env : RequestEnvelope) : M Response := response.

End SessionEndedRequestHandler.

(** *** [IntentReflectorHandler] *)

Module IntentReflectorHandler.

Definition can_handle (env : RequestEnvelope) : bool :=
  is_request_type "IntentRequest" env.

(** [ask_utils.get_intent_name(handler_input)], which raises TypeError on a
    request that is no intent request *)
Definition get_intent_name (env : RequestEnvelope) : K string :=
  match request env with
  | IntentRequest name _ => kret name
  | _ => kfault TypeError
  end.

Definition handle (env : RequestEnvelope) : K Response :=
  (intent_name <~ get_intent_name env ;;
   let speak_output := "You just triggered " ++ intent_name ++ "." in
   lift_M (speak speak_output ;;; response)%handler)%skill.

End IntentReflectorHandler.

(** *** The exception handler on any fault *)

Definition exception_handle (f : fault) : K Response :=
  match f with
  | Python e => lift_M (CatchAllExceptionHandler.handle e)
  | _ =>
      (skill_logger (Error f) ;;;
       lift_M (speak CatchAllExceptionHandler.sorry ;;; response)%handler)%skill
  end.

(** *** The skill builder: the handlers in the order of their registration *)

Record RequestHandler : Type := {
  handler_name : string;
  handler_can_handle : SkillWorld -> RequestEnvelope -> K bool;
  handler_handle : SkillWorld -> RequestEnvelope -> K Response
}.

Definition request_handlers : list RequestHandler :=
  [ {| handler_name := "HasBirthdayLaunchRequestHandler";
       handler_can_handle := HasBirthdayLaunchRequest.can_handle;
       handler_handle := HasBirthdayLaunchRequest.handle |};
    {| handler_name := "LaunchRequestHandler";
       handler_can_handle := fun _ env => kret (LaunchRequestHandler.can_handle env);
       handler_handle := fun sw env => lift_M (LaunchRequestHandler.handle (world sw) env) |};
    {| handler_name := "CaptureBirthdayIntentHandler";
       handler_can_handle := fun _ env => kret (CaptureBirthdayIntentHandler.can_handle env);
       handler_handle := CaptureBirthdayIntentHandler.handle |};
    {| handler_name := "HelpIntentHandler";
       handler_can_handle := fun _ env => kret (HelpIntentHandler.can_handle env);
       handler_handle := fun sw env => lift_M (HelpIntentHandler.handle (world sw) env) |};
    {| handler_name := "CancelOrStopIntentHandler";
       handler_can_handle := fun _ env => kret (CancelOrStopIntentHandler.can_handle env);
       handler_handle := fun sw env => lift_M (CancelOrStopIntentHandler.handle (world sw) env) |};
    {| handler_name := "FallbackIntentHandler";
       handler_can_handle := fun _ env => kret (FallbackIntentHandler.can_handle env);
       handler_handle := fun _ env => FallbackIntentHandler.handle env |};
    {| handler_name := "SessionEndedRequestHandler";
       handler_can_handle := fun _ env => kret (SessionEndedRequestHandler.can_handle env);
       handler_handle := fun _ env => lift_M (SessionEndedRequestHandler.handle env) |};
    {| handler_name := "IntentReflectorHandler";
       handler_can_handle := fun _ env => kret (IntentReflectorHandler.can_handle env);
       handler_handle := fun _ env => IntentReflectorHandler.handle env |} ].

(** The first handler of the chain that can handle the request handles it;
    when there is none, the dispatcher raises. *)
Fixpoint dispatch_request (chain : list RequestHandler)
         (sw : SkillWorld) (env : RequestEnvelope) : K Response :=
  match chain with
  | [] => kfault DispatchException
  | h :: rest =>
      (can <~ handler_can_handle h sw env ;;
       if can then handler_handle h sw env
       else dispatch_request rest sw env)%skill
  end.

Definition fresh (b : attributes) : Skill :=
  {| handler_state := initial_state; cached := None; bucket := b;
     skill_log := [] |}.

(** [lambda_handler], from the request envelope on: one request that the
    SDK has read into an envelope, served from the bucket as it is found.
    What the dispatch raises goes to the exception handler, which can
    handle everything.  Reading the event into the envelope comes before
    and is not part of this function: an event that the SDK cannot read
    never reaches the chain. *)
Definition lambda_handler (sw : SkillWorld) (env : RequestEnvelope)
           (b : attributes) : fallible Response * Skill :=
  match dispatch_request request_handlers sw env (fresh b) with
  | (Done r, k) => (Done r, k)
  | (Fault f, k) => exception_handle f k
  end.

(** What the user hears from the skill. *)
Definition heard (out : fallible Response * Skill) : option string :=
  match fst out with
  | Done r => speech r
  | Fault _ => None
  end.

(** ** The wording of the specification

    The definitions below follow the words of the specification, to be
    compared with the code above. *)

(** Equal, letter case apart. *)
Definition same_letters (s t : string) : bool :=
  String.eqb (PyStr.lower s) (PyStr.lower t).

(** [s] is, letter case apart, the full name or the 3-letter abbreviation of
    month [i]. *)
Definition names_month (s : string) (i : Z) : bool :=
  same_letters s (nth (Z.to_nat i) Calendar.month_name "")
  || same_letters s (nth (Z.to_nat i) Calendar.month_abbr "").

Definition names_a_month (s : string) : bool :=
  existsb (names_month s) [1; 2; 3; 4; 5; 6; 7; 8; 9; 10; 11; 12].

(** The suffix that goes with a last digit. *)
Definition suffix_of_digit (d : Z) : string :=
  if d =? 1 then "st"
  else if d =? 2 then "nd"
  else if d =? 3 then "rd"
  else "th".

(** The last decimal digit of an integer, as it is written. *)
Definition last_digit (n : Z) : Z := Z.abs n mod 10.

(** The outcome of the countdown in the terms of the specification: whether
    today is the birthday, the age reached at the next occurrence and the
    days until it. *)
Record BirthdayOutcome : Type := {
  isToday : bool;
  ageReached : Z;
  daysUntilNext : Z
}.

Definition outcome (r : BirthRecord) (l : Locals) : BirthdayOutcome :=
  {| isToday := negb (Datetime.ne (now_date l) (next_birthday l));
     ageReached := current_year l - birth_year r;
     daysUntilNext := Z.abs (Datetime.sub_days (now_date l) (next_birthday l)) |}.

(** The three attributes of a birthday are in the dictionary. *)
Definition has_birthday (attr : attributes) : bool :=
  contains "year" attr && contains "month" attr && contains "day" attr.

(** The state of a request once the attributes are read from the bucket. *)
Definition loaded (b : attributes) : Skill :=
  {| handler_state := initial_state; cached := Some b; bucket := b;
     skill_log := [] |}.

(** What [HasBirthdayLaunchRequestHandler.handle] reads from the request and
    from a birthday. *)
Definition input_of (env : RequestEnvelope) (r : BirthRecord) : HandlerInput :=
  {| persistent_attributes := r;
     device_id := system_device_id env;
     api_endpoint := system_api_endpoint env;
     api_access_token := system_api_access_token env;
     supports_apl := alexa_presentation_apl env |}.

(** The names of the intents that a handler other than the reflector
    takes. *)
Definition custom_intents : list string :=
  ["CaptureBirthdayIntent"; "AMAZON.HelpIntent"; "AMAZON.CancelIntent";
   "AMAZON.StopIntent"; "AMAZON.FallbackIntent"].

(** The request that the handler sends to the Settings API. *)
Definition settings_request (env : RequestEnvelope)
  : string * list (string * string) :=
  (system_api_endpoint env ++ "/v2/devices/" ++ system_device_id env
   ++ "/settings/System.timeZone",
   [("Authorization", "Bearer " ++ system_api_access_token env)]).

(** What a request may leave behind, whatever handler served it: no
    directive or the one of a device with a screen, no request or the one
    to the Settings API on a launch with a stored birthday, the bucket as it
    was or the birthday of a capture intent. *)
Definition effects (sw : SkillWorld) (env : RequestEnvelope) (b : attributes)
           (k : Skill) : Prop :=
  (directives (response_builder (handler_state k)) = []
   \/ (alexa_presentation_apl env = true
       /\ exists data,
           directives (response_builder (handler_state k))
           = [apl_directive (world sw) data]))
  /\ (requests_sent (handler_state k) = []
      \/ (is_request_type "LaunchRequest" env = true
          /\ has_birthday b = true
          /\ requests_sent (handler_state k) = [settings_request env]))
  /\ (bucket k = b
      \/ (is_intent_name "CaptureBirthdayIntent" env = true
          /\ exists y m d,
              bucket k = [("year", y); ("month", m); ("day", d)])).

(** A handler has answered, or has raised before it said anything. *)
Definition handled (sw : SkillWorld) (env : RequestEnvelope) (b : attributes)
           (out : fallible Response * Skill) : Prop :=
  effects sw env b (snd out)
  /\ match fst out with
     | Done r =>
         r = response_builder (handler_state (snd out))
         /\ (speech r = None ->
             object_type (request env) = "SessionEndedRequest")
     | Fault _ =>
         speech (response_builder (handler_state (snd out))) = None
         /\ directives (response_builder (handler_state (snd out))) = []
     end.

(** The skill has answered. *)
Definition answered (sw : SkillWorld) (env : RequestEnvelope) (b : attributes)
           (out : fallible Response * Skill) : Prop :=
  effects sw env b (snd out)
  /\ exists r,
      fst out = Done r
      /\ r = response_builder (handler_state (snd out))
      /\ (speech r = None ->
          object_type (request env) = "SessionEndedRequest"
          /\ s3_up sw = true).

(** ** Sample inputs *)

(** A conversion for the sample worlds: decimal numerals only. *)
Fixpoint all_digits (s : string) : bool :=
  match s with
  | EmptyString => true
  | String c r =>
      (48 <=? PyStr.code c)%N && (PyStr.code c <=? 57)%N && all_digits r
  end.

Definition numeral (v : option string) : fallible Z :=
  match v with
  | None => Fault TypeError
  | Some EmptyString => Fault (Python ValueError)
  | Some s =>
      if all_digits s then Done (PyStr.digits_value 0 s)
      else Fault (Python ValueError)
  end.

Definition an_envelope (r : Request) (apl : bool) : RequestEnvelope :=
  {| request := r;
     system_device_id := "amzn1.ask.device.A";
     system_api_endpoint := "https://api.amazonalexa.com";
     system_api_access_token := "token";
     alexa_presentation_apl := apl |}.

Definition birthday_slots : attributes :=
  [("year", Some "2014"); ("month", Some "November"); ("day", Some "6")].

Definition born (y : Z) (m : string) (d : Z) : BirthRecord :=
  {| birth_year := y; birth_month := m; birth_day := d |}.

Definition a_device (r : BirthRecord) (apl : bool) : HandlerInput :=
  {| persistent_attributes := r;
     device_id := "amzn1.ask.device.A";
     api_endpoint := "https://api.amazonalexa.com";
     api_access_token := "token";
     supports_apl := apl |}.

(** A world where the Settings API answers and the clock shows [now]. *)
Definition world_on (now : Datetime.datetime) : World :=
  {| requests_get_json := fun _ _ => Ok (JString "America/Los_Angeles");
     datetime_now := fun _ => Ok now;
     apl_files := fun name => JObject [("file", JString name)] |}.

(** Another such world, in another time zone and with other documents. *)
Definition world_elsewhere (now : Datetime.datetime) : World :=
  {| requests_get_json := fun _ _ => Ok (JString "Europe/Paris");
     datetime_now := fun _ => Ok now;
     apl_files := fun _ => JNull |}.

(** The skill in such a world, with the bucket in reach or not. *)
Definition skill_on (now : Datetime.datetime) (s3 : bool) : SkillWorld :=
  {| world := world_on now; py_int := numeral; s3_up := s3 |}.

(** A world where the Settings API answers with a name that is no time
    zone. *)
Definition world_no_zone : World :=
  {| requests_get_json := fun _ _ => Ok (JString "Mars/Olympus");
     datetime_now := fun _ => Raise UnknownTimeZoneError;
     apl_files := fun name => JObject [("file", JString name)] |}.

(** A world where the Settings API cannot be reached. *)
Definition world_offline (now : Datetime.datetime) : World :=
  {| requests_get_json := fun _ _ => Raise RequestException;
     datetime_now := fun _ => Ok now;
     apl_files := fun name => JObject [("file", JString name)] |}.

(** * Properties *)

(** ** Strings *)

Section StringFacts.

Import PyStr.

Lemma last_char_snoc (s : string) (c : ascii) :
  last_char (s ++ String c EmptyString) = Ok c.
Proof.
  induction s as [|a s IH]; simpl; [reflexivity|].
  rewrite IH. destruct s; reflexivity.
Qed.

Lemma last_char_digits (f : nat) (n : Z) :
  0 <= n -> last_char (digits (S f) n) = Ok (digit_char (n mod 10)).
Proof.
  intros Hn. simpl. destruct (n <? 10) eqn:E.
  - apply Z.ltb_lt in E. rewrite Z.mod_small by lia. reflexivity.
  - apply last_char_snoc.
Qed.

Lemma last_char_str (n : Z) :
  last_char (str n) = Ok (digit_char (Z.abs n mod 10)).
Proof.
  unfold str, str_nonneg. destruct (n <? 0) eqn:E.
  - apply Z.ltb_lt in E.
    change (last_char (String "-" (digits (S (Z.to_nat (Z.log2 (- n)))) (- n))))
      with (match digits (S (Z.to_nat (Z.log2 (- n)))) (- n) with
            | EmptyString => Ok "-"%char
            | String _ _ => last_char (digits (S (Z.to_nat (Z.log2 (- n)))) (- n))
            end).
    rewrite last_char_digits by lia.
    replace (Z.abs n) with (- n) by lia.
    destruct (digits _ _) eqn:D; [|reflexivity].
    simpl in D. destruct (- n <? 10); [discriminate|].
    destruct (digits _ (- n / 10)); discriminate.
  - apply Z.ltb_ge in E. rewrite last_char_digits by lia.
    replace (Z.abs n) with n by lia. reflexivity.
Qed.

(** Enough fuel: [str_nonneg] writes all the digits of its argument. *)
Lemma digits_value_app (s t : string) (acc : Z) :
  digits_value acc (s ++ t) = digits_value (digits_value acc s) t.
Proof.
  revert acc. induction s as [|c s IH]; intros acc; simpl; [reflexivity|].
  apply IH.
Qed.

Lemma digit_value_char (d : Z) : 0 <= d < 10 -> digit_value (digit_char d) = d.
Proof.
  intros H. unfold digit_value, digit_char, code.
  rewrite N_ascii_embedding by lia. lia.
Qed.

Lemma digits_value_digits (f : nat) (n : Z) :
  0 <= n -> Z.log2 n < Z.of_nat f -> digits_value 0 (digits f n) = n.
Proof.
  revert n. induction f as [|f IH]; intros n Hn Hf.
  - pose proof (Z.log2_nonneg n). lia.
  - simpl. destruct (n <? 10) eqn:E.
    + apply Z.ltb_lt in E. cbn [digits_value]. rewrite digit_value_char by lia. lia.
    + apply Z.ltb_ge in E.
      rewrite digits_value_app, IH.
      * cbn [digits_value]. rewrite digit_value_char by (apply Z.mod_pos_bound; lia).
        pose proof (Z.div_mod n 10 ltac:(lia)). lia.
      * apply Z.div_pos; lia.
      * assert (Z.log2 (n / 10) <= Z.log2 (n / 2)).
        { apply Z.log2_le_mono.
          pose proof (Z.div_mod n 10 ltac:(lia)).
          pose proof (Z.div_mod n 2 ltac:(lia)).
          pose proof (Z.mod_pos_bound n 10 ltac:(lia)).
          pose proof (Z.mod_pos_bound n 2 ltac:(lia)).
          lia. }
        assert (Z.log2 (n / 2) = Z.log2 n - 1).
        { rewrite <- Z.div2_div, Z.div2_spec, Z.log2_shiftr by lia.
          pose proof (Z.log2_le_mono 10 n ltac:(lia)).
          assert (Z.log2 10 = 3) by reflexivity. lia. }
        lia.
Qed.

Lemma str_nonneg_value (n : Z) : 0 <= n -> digits_value 0 (str_nonneg n) = n.
Proof.
  intros Hn. unfold str_nonneg. apply digits_value_digits; [assumption|].
  pose proof (Z.log2_nonneg n). lia.
Qed.

End StringFacts.

(** ** The ordinal suffix *)

Lemma ordinal_of_str (n : Z) :
  ordinal_of (PyStr.str n) = Ok (suffix_of_digit (last_digit n)).
Proof.
  unfold ordinal_of, last_digit. rewrite last_char_str. cbn [bind].
  pose proof (Z.mod_pos_bound (Z.abs n) 10 ltac:(lia)) as Hd.
  set (d := Z.abs n mod 10) in *.
  assert (d = 0 \/ d = 1 \/ d = 2 \/ d = 3 \/ d = 4 \/ d = 5 \/ d = 6
          \/ d = 7 \/ d = 8 \/ d = 9) as Hc by lia.
  repeat (destruct Hc as [-> | Hc]; [reflexivity|]).
  rewrite Hc. reflexivity.
Qed.

(** ** The month lookup *)

Section MonthFacts.

Import PyStr.

Lemma lower_char_idem (c : ascii) : lower_char (lower_char c) = lower_char c.
Proof. destruct c as [[] [] [] [] [] [] [] []]; reflexivity. Qed.

Lemma upper_lower_char (c : ascii) : upper_char (lower_char c) = upper_char c.
Proof. destruct c as [[] [] [] [] [] [] [] []]; reflexivity. Qed.

Lemma iscased_lower_char (c : ascii) : iscased (lower_char c) = iscased c.
Proof. destruct c as [[] [] [] [] [] [] [] []]; reflexivity. Qed.

Lemma title_from_lower (b : bool) (s : string) :
  title_from b (lower s) = title_from b s.
Proof.
  revert b. induction s as [|c s IH]; intros b; simpl; [reflexivity|].
  rewrite iscased_lower_char, lower_char_idem, upper_lower_char, !IH.
  destruct (iscased c) eqn:E; [reflexivity|].
  unfold iscased in E. apply orb_false_elim in E. destruct E as [E _].
  unfold lower_char. rewrite E. reflexivity.
Qed.

Lemma slice_to_lower (n : nat) (s : string) :
  slice_to n (lower s) = lower (slice_to n s).
Proof.
  revert s. induction n as [|n IH]; intros [|c s]; simpl; try reflexivity.
  rewrite IH. reflexivity.
Qed.

(** The lookup does not see the letter case of the month string. *)
Lemma month_as_index_lower (s : string) :
  month_as_index (lower s) = month_as_index s.
Proof.
  unfold month_as_index, title.
  rewrite slice_to_lower, title_from_lower. reflexivity.
Qed.

Lemma month_as_index_same_letters (s t : string) :
  same_letters s t = true -> month_as_index s = month_as_index t.
Proof.
  unfold same_letters. intros H. apply String.eqb_eq in H.
  rewrite <- (month_as_index_lower s), H. apply month_as_index_lower.
Qed.

Lemma index_from_raise (i : Z) (xs : list string) (x : string) (e : exn) :
  index_from i xs x = Raise e -> e = ValueError /\ ~ In x xs.
Proof.
  revert i. induction xs as [|y r IH]; intros i; simpl.
  - intros H. injection H as <-. split; [reflexivity | tauto].
  - destruct (String.eqb y x) eqn:E; [discriminate|].
    intros H. apply IH in H. destruct H as [He Hn]. split; [assumption|].
    apply String.eqb_neq in E. intros [Hy | Hr]; [congruence | tauto].
Qed.

(** [index] returns the position of the first occurrence. *)
Lemma index_from_ok (i : Z) (xs : list string) (x : string) (j : Z) :
  index_from i xs x = Ok j ->
  i <= j
  /\ nth_error xs (Z.to_nat (j - i)) = Some x
  /\ ~ In x (firstn (Z.to_nat (j - i)) xs).
Proof.
  revert i. induction xs as [|y r IH]; intros i; simpl; [discriminate|].
  destruct (String.eqb y x) eqn:E.
  - intros H. injection H as <-. apply String.eqb_eq in E.
    replace (i - i) with 0 by lia. simpl. subst y. repeat split; [lia | tauto].
  - intros H. apply IH in H. destruct H as (Hle & Hn & Hf).
    replace (Z.to_nat (j - i)) with (S (Z.to_nat (j - (i + 1)))) by lia.
    simpl. repeat split; [lia | assumption |].
    apply String.eqb_neq in E. intros [Hy | Hr]; [congruence | tauto].
Qed.

Lemma index_from_in (i : Z) (xs : list string) (x : string) :
  In x xs -> exists j, index_from i xs x = Ok j.
Proof.
  intros H. destruct (index_from i xs x) as [j|e] eqn:E; [eauto|].
  apply index_from_raise in E. tauto.
Qed.

Lemma month_as_index_raise (s : string) (e : exn) :
  month_as_index s = Raise e ->
  e = ValueError /\ ~ In (title (slice_to 3 s)) Calendar.month_abbr.
Proof. apply index_from_raise. Qed.

Lemma month_as_index_not_in (s : string) :
  ~ In (title (slice_to 3 s)) Calendar.month_abbr ->
  month_as_index s = Raise ValueError.
Proof.
  intros H. destruct (month_as_index s) as [j|e] eqn:E.
  - apply index_from_ok in E. destruct E as (_ & E & _).
    apply nth_error_In in E. tauto.
  - apply month_as_index_raise in E. destruct E as [-> _]. reflexivity.
Qed.

End MonthFacts.

(** C10.  The month lookup takes the first three characters of the month
    string, title-cases them and looks them up in the table of the month
    abbreviations, whose entry 0 is the empty string: it succeeds exactly
    when that prefix is an entry of the table, and then returns the entry's
    position; otherwise it raises ValueError.  So "Janzzz", which is no month
    name, is taken for January, and the empty string gives the index 0. *)
Theorem month_lookup_by_prefix :
  (forall s : string,
      (exists i, month_as_index s = Ok i)
      <-> In (PyStr.title (PyStr.slice_to 3 s)) Calendar.month_abbr)
  /\ (forall (s : string) (i : Z),
         month_as_index s = Ok i ->
         0 <= i <= 12
         /\ nth_error Calendar.month_abbr (Z.to_nat i)
            = Some (PyStr.title (PyStr.slice_to 3 s)))
  /\ (forall (s : string) (e : exn),
         month_as_index s = Raise e -> e = ValueError)
  /\ names_a_month "Janzzz" = false
  /\ month_as_index "Janzzz" = Ok 1
  /\ month_as_index "" = Ok 0.
Proof.
  split; [|split; [|split; [|repeat split]]].
  - intros s. split.
    + intros [i H]. apply index_from_ok in H. destruct H as (_ & H & _).
      apply nth_error_In in H. exact H.
    + apply index_from_in.
  - intros s i H. apply index_from_ok in H. destruct H as (Hle & H & _).
    rewrite Z.sub_0_r in H. split; [|exact H].
    assert (Z.to_nat i < List.length Calendar.month_abbr)%nat as Hlt
        by (apply nth_error_Some; congruence).
    simpl in Hlt. lia.
  - intros s e H. apply month_as_index_raise in H. tauto.
Qed.

Lemma month_lookup_by_prefix_witness :
  0 <= 9 <= 12
  /\ nth_error Calendar.month_abbr (Z.to_nat 9)
     = Some (PyStr.title (PyStr.slice_to 3 "SEPTEMBER")).
Proof.
  apply (proj1 (proj2 month_lookup_by_prefix) "SEPTEMBER" 9). reflexivity.
Defined.

(** ** Dates *)

Section DateFacts.

Import Datetime.

Lemma new_inv (y m d : Z) (a : datetime) :
  new y m d = Ok a ->
  a = mk y m d
  /\ 1 <= y <= 9999 /\ 1 <= m <= 12 /\ 1 <= d <= days_in_month y m.
Proof.
  unfold new, MINYEAR, MAXYEAR.
  destruct ((1 <=? y) && (y <=? 9999)) eqn:Ey; [|discriminate].
  destruct ((1 <=? m) && (m <=? 12)) eqn:Em; [|discriminate].
  destruct ((1 <=? d) && (d <=? days_in_month y m)) eqn:Ed; [|discriminate].
  cbn [negb]. intros H. injection H as <-.
  apply andb_prop in Ey, Em, Ed. rewrite !Z.leb_le in Ey, Em, Ed. tauto.
Qed.

Lemma new_valid (y m d : Z) :
  1 <= y <= 9999 -> 1 <= m <= 12 -> 1 <= d <= days_in_month y m ->
  new y m d = Ok (mk y m d).
Proof.
  intros Hy Hm Hd. unfold new, MINYEAR, MAXYEAR.
  replace ((1 <=? y) && (y <=? 9999)) with true
    by (symmetry; apply andb_true_intro; rewrite !Z.leb_le; lia).
  replace ((1 <=? m) && (m <=? 12)) with true
    by (symmetry; apply andb_true_intro; rewrite !Z.leb_le; lia).
  replace ((1 <=? d) && (d <=? days_in_month y m)) with true
    by (symmetry; apply andb_true_intro; rewrite !Z.leb_le; lia).
  reflexivity.
Qed.

Lemma new_is_valid (y m d : Z) (a : datetime) : new y m d = Ok a -> valid a.
Proof.
  intros H. pose proof (new_inv _ _ _ _ H) as [-> _]. exact H.
Qed.

Lemma days_before_year_succ (y : Z) :
  days_before_year (y + 1) = days_before_year y + days_in_year y.
Proof.
  unfold days_before_year, days_in_year, is_leap. cbv zeta.
  replace (y + 1 - 1) with y by lia.
  destruct (y mod 4 =? 0) eqn:E4; destruct (y mod 100 =? 0) eqn:E100;
    destruct (y mod 400 =? 0) eqn:E400; cbn [negb andb orb];
    rewrite ?Z.eqb_eq, ?Z.eqb_neq in *;
    Z.to_euclidean_division_equations; lia.
Qed.

Lemma days_before_year_le (y y' : Z) :
  y <= y' -> days_before_year y <= days_before_year y'.
Proof.
  unfold days_before_year. cbv zeta. intros H.
  Z.to_euclidean_division_equations. lia.
Qed.

Lemma month_cases (m : Z) :
  1 <= m <= 12 ->
  m = 1 \/ m = 2 \/ m = 3 \/ m = 4 \/ m = 5 \/ m = 6
  \/ m = 7 \/ m = 8 \/ m = 9 \/ m = 10 \/ m = 11 \/ m = 12.
Proof. lia. Qed.

Ltac each_month H :=
  apply month_cases in H;
  repeat (destruct H as [-> | H]); [.. | subst].

Ltac table_lookup :=
  cbv [nth Z.to_nat Pos.to_nat Pos.iter_op Init.Nat.add
       DAYS_IN_MONTH DAYS_BEFORE_MONTH
       Z.eqb Z.ltb Z.compare Pos.eqb Pos.compare Pos.compare_cont andb].

(** The day of the year lies inside the year. *)
Lemma day_of_year_bounds (y m d : Z) :
  1 <= m <= 12 -> 1 <= d <= days_in_month y m ->
  1 <= days_before_month y m + d <= days_in_year y.
Proof.
  intros Hm. unfold days_in_month, days_before_month, days_in_year.
  each_month Hm; destruct (is_leap y); table_lookup; lia.
Qed.

(** The day of the year grows with the month and the day. *)
Lemma day_of_year_lt (y m d m' d' : Z) :
  1 <= m <= 12 -> 1 <= d <= days_in_month y m ->
  1 <= m' <= 12 -> 1 <= d' <= days_in_month y m' ->
  m < m' \/ (m = m' /\ d < d') ->
  days_before_month y m + d < days_before_month y m' + d'.
Proof.
  intros Hm Hd Hm' Hd' Hlt. revert Hd Hd' Hlt.
  unfold days_in_month, days_before_month.
  each_month Hm; each_month Hm'; destruct (is_leap y); table_lookup; lia.
Qed.

(** Later dates have larger ordinals. *)
Lemma toordinal_lt (a b : datetime) :
  valid a -> valid b -> gt b a = true -> toordinal a < toordinal b.
Proof.
  unfold valid. intros Ha Hb Hgt.
  apply new_inv in Ha, Hb.
  destruct Ha as (_ & Hya & Hma & Hda), Hb as (_ & Hyb & Hmb & Hdb).
  unfold toordinal, ymd2ord. unfold gt in Hgt.
  apply orb_prop in Hgt. destruct Hgt as [Hy | Hgt].
  - apply Z.ltb_lt in Hy.
    pose proof (day_of_year_bounds _ _ _ Hma Hda).
    pose proof (day_of_year_bounds _ _ _ Hmb Hdb).
    pose proof (days_before_year_succ (year a)).
    pose proof (days_before_year_le (year a + 1) (year b) ltac:(lia)).
    lia.
  - apply andb_prop in Hgt. destruct Hgt as [Hy Hgt].
    apply Z.eqb_eq in Hy. rewrite Hy in *.
    assert (month a < month b \/ (month a = month b /\ day a < day b)) as Hlt.
    { apply orb_prop in Hgt. destruct Hgt as [Hm | Hgt].
      - apply Z.ltb_lt in Hm. left. lia.
      - apply andb_prop in Hgt. destruct Hgt as [Hm Hd].
        apply Z.eqb_eq in Hm. apply Z.ltb_lt in Hd. right. lia. }
    pose proof (day_of_year_lt _ _ _ _ _ Hma Hda Hmb Hdb Hlt). lia.
Qed.

Lemma ne_false (a b : datetime) : ne a b = false <-> a = b.
Proof.
  unfold ne. destruct a as [ya ma da], b as [yb mb db]. cbn [year month day].
  rewrite negb_false_iff, !andb_true_iff, !Z.eqb_eq.
  split; [intros [[-> ->] ->]; reflexivity | intros H; injection H; auto].
Qed.

Lemma ne_true_gt (a b : datetime) :
  ne a b = true -> gt a b = true \/ gt b a = true.
Proof.
  unfold ne, gt. destruct a as [ya ma da], b as [yb mb db]. cbn [year month day].
  rewrite negb_true_iff. intros H.
  destruct (Z.lt_total ya yb) as [Hy | [Hy | Hy]];
    destruct (Z.lt_total ma mb) as [Hm | [Hm | Hm]];
    destruct (Z.lt_total da db) as [Hd | [Hd | Hd]];
    subst;
    rewrite ?Z.eqb_refl in *; cbn [andb orb] in *; try discriminate;
    repeat match goal with
           | H : ?x < ?y |- context [?x <? ?y] =>
               rewrite (proj2 (Z.ltb_lt x y) H)
           end;
    cbn [andb orb]; rewrite ?orb_true_r; auto.
Qed.

Lemma gt_irrefl (a : datetime) : gt a a = false.
Proof.
  unfold gt. rewrite !Z.ltb_irrefl, !Z.eqb_refl. reflexivity.
Qed.

(** Different dates are at least a day apart. *)
Lemma sub_days_ne (a b : datetime) :
  valid a -> valid b -> ne a b = true -> 1 <= Z.abs (sub_days a b).
Proof.
  intros Ha Hb H. unfold sub_days.
  destruct (ne_true_gt _ _ H) as [Hgt | Hgt].
  - pose proof (toordinal_lt _ _ Hb Ha Hgt). lia.
  - pose proof (toordinal_lt _ _ Ha Hb Hgt). lia.
Qed.

Lemma sub_days_same (a : datetime) : sub_days a a = 0.
Proof. unfold sub_days. lia. Qed.

End DateFacts.

(** ** The countdown *)

Section CountdownFacts.

Import Datetime.

Variable w : World.
Variable r : BirthRecord.

(** The countdown runs to its end as soon as the month is found and the
    dates it builds exist. *)
Lemma countdown_runs (now d0 next : datetime) (m cy : Z) :
  valid now ->
  month_as_index (birth_month r) = Ok m ->
  new (year now) m (birth_day r) = Ok d0 ->
  (if gt now d0
   then new (year now + 1) m (birth_day r) = Ok next /\ cy = year now + 1
   else next = d0 /\ cy = year now) ->
  exists l,
    countdown w r now = Ok l
    /\ now_date l = now /\ month_index l = m
    /\ next_birthday l = next /\ current_year l = cy
    /\ age l = PyStr.str (cy - birth_year r)
    /\ ordinal l = suffix_of_digit (last_digit (cy - birth_year r))
    /\ diff_days l
       = (if ne now next then Some (Z.abs (sub_days now next)) else None)
    /\ speak_output l
       = (if ne now next
          then
            let days := Z.abs (sub_days now next) in
            let text :=
              "Welcome back. It looks like there are " ++ PyStr.str days
              ++ " days until your " ++ age l ++ ordinal l ++ " birthday" in
            if days =? 1
            then PyStr.replace "days" "day" (PyStr.replace "are" "is" text)
            else text
          else "Happy " ++ age l ++ ordinal l ++ " birthday!")
    /\ display_directive l
       = apl_directive w (if ne now next
                          then "birthdayCountdownDataSources.json"
                          else "hasBirthdayDataSources.json").
Proof.
  intros Hnow Hm Hd0 Hnext. unfold countdown.
  rewrite Hnow. cbn [bind]. rewrite Hm. cbn [bind]. rewrite Hd0. cbn [bind].
  assert ((if gt now d0
           then (next_birthday <- new (year now + 1) m (birth_day r) ;;
                 Ok (next_birthday, year now + 1))%py
           else Ok (d0, year now)) = Ok (next, cy)) as ->.
  { destruct (gt now d0).
    - destruct Hnext as [-> ->]. reflexivity.
    - destruct Hnext as [-> ->]. reflexivity. }
  cbn [bind fst snd]. rewrite ordinal_of_str. cbn [bind].
  destruct (ne now next); eexists; (split; [reflexivity|]);
    cbn [now_date month_index next_birthday current_year age ordinal
         diff_days speak_output display_directive];
    repeat split; reflexivity.
Qed.

(** What a finished countdown went through. *)
Lemma countdown_inv (now : datetime) (l : Locals) :
  countdown w r now = Ok l ->
  valid now
  /\ exists d0,
      month_as_index (birth_month r) = Ok (month_index l)
      /\ new (year now) (month_index l) (birth_day r) = Ok d0
      /\ (if gt now d0
          then new (year now + 1) (month_index l) (birth_day r)
               = Ok (next_birthday l)
               /\ current_year l = year now + 1
          else next_birthday l = d0 /\ current_year l = year now).
Proof.
  unfold countdown. intros H.
  destruct (new (year now) (month now) (day now)) as [nd|] eqn:Hnow;
    [|discriminate].
  assert (nd = now) as ->.
  { apply new_inv in Hnow. destruct Hnow as [-> _]. destruct now; reflexivity. }
  cbn [bind] in H.
  destruct (month_as_index (birth_month r)) as [m|] eqn:Hm; [|discriminate].
  cbn [bind] in H.
  destruct (new (year now) m (birth_day r)) as [d0|] eqn:Hd0; [|discriminate].
  cbn [bind] in H.
  split; [exact Hnow|]. exists d0.
  destruct (gt now d0) eqn:Hgt.
  - destruct (new (year now + 1) m (birth_day r)) as [d1|] eqn:Hd1;
      [|discriminate].
    cbn [bind fst snd] in H. rewrite ordinal_of_str in H. cbn [bind] in H.
    destruct (ne now d1); injection H as <-;
      cbn [month_index next_birthday current_year]; auto.
  - cbn [bind fst snd] in H. rewrite ordinal_of_str in H. cbn [bind] in H.
    destruct (ne now d0); injection H as <-;
      cbn [month_index next_birthday current_year]; auto.
Qed.

(** When the birthday of this year is over and the one of next year does
    not exist, the countdown raises what the constructor raises. *)
Lemma countdown_no_next_year (now d0 : datetime) (m : Z) (e : exn) :
  valid now ->
  month_as_index (birth_month r) = Ok m ->
  new (year now) m (birth_day r) = Ok d0 ->
  gt now d0 = true ->
  new (year now + 1) m (birth_day r) = Raise e ->
  countdown w r now = Raise e.
Proof.
  intros Hnow Hm Hd0 Hgt Hd1. unfold countdown.
  rewrite Hnow. cbn [bind]. rewrite Hm. cbn [bind]. rewrite Hd0. cbn [bind].
  rewrite Hgt, Hd1. reflexivity.
Qed.

(** Every fact of [countdown_runs] holds of a finished countdown. *)
Lemma countdown_facts (now : datetime) (l : Locals) :
  countdown w r now = Ok l ->
  valid now /\ valid (next_birthday l)
  /\ now_date l = now
  /\ age l = PyStr.str (current_year l - birth_year r)
  /\ ordinal l = suffix_of_digit (last_digit (current_year l - birth_year r))
  /\ diff_days l
     = (if ne now (next_birthday l)
        then Some (Z.abs (sub_days now (next_birthday l))) else None)
  /\ speak_output l
     = (if ne now (next_birthday l)
        then
          let days := Z.abs (sub_days now (next_birthday l)) in
          let text :=
            "Welcome back. It looks like there are " ++ PyStr.str days
            ++ " days until your " ++ age l ++ ordinal l ++ " birthday" in
          if days =? 1
          then PyStr.replace "days" "day" (PyStr.replace "are" "is" text)
          else text
        else "Happy " ++ age l ++ ordinal l ++ " birthday!").
Proof.
  intros H. destruct (countdown_inv _ _ H) as (Hnow & d0 & Hm & Hd0 & Hnext).
  destruct (countdown_runs now d0 (next_birthday l) (month_index l)
              (current_year l) Hnow Hm Hd0 Hnext)
    as (l' & Hl' & F1 & F2 & F3 & F4 & F5 & F6 & F7 & F8 & F9).
  rewrite H in Hl'. injection Hl' as <-.
  split; [exact Hnow|]. split.
  - destruct (gt now d0).
    + destruct Hnext as [Hn _]. exact (new_is_valid _ _ _ _ Hn).
    + destruct Hnext as [-> _]. exact (new_is_valid _ _ _ _ Hd0).
  - repeat split; assumption.
Qed.

End CountdownFacts.

Section OrderFacts.

Import Datetime.

Lemma gt_asym (a b : datetime) : gt a b = true -> gt b a = false.
Proof.
  unfold gt.
  destruct (Z.ltb_spec (year b) (year a)), (Z.ltb_spec (year a) (year b)),
    (Z.eqb_spec (year a) (year b)), (Z.eqb_spec (year b) (year a)),
    (Z.ltb_spec (month b) (month a)), (Z.ltb_spec (month a) (month b)),
    (Z.eqb_spec (month a) (month b)), (Z.eqb_spec (month b) (month a)),
    (Z.ltb_spec (day b) (day a)), (Z.ltb_spec (day a) (day b));
    cbn [andb orb]; intros; try reflexivity; try discriminate; lia.
Qed.

(** Not after: the same date or an earlier one. *)
Lemma gt_false (a b : datetime) :
  gt a b = false <-> a = b \/ gt b a = true.
Proof.
  split.
  - intros H. destruct (ne a b) eqn:E.
    + destruct (ne_true_gt _ _ E) as [G | G]; [congruence | tauto].
    + left. apply ne_false. exact E.
  - intros [-> | H]; [apply gt_irrefl | apply gt_asym; exact H].
Qed.

End OrderFacts.

(** ** The handler *)

Section HandlerFacts.

Variable w : World.
Variable hi : HandlerInput.
Variable s : State.

Lemma handle_offline (e : exn) :
  requests_get_json w (settings_url hi) (settings_headers hi) = Raise e ->
  handle w hi s
  = (Ok {| speech := Some connection_problem;
           reprompt := reprompt (response_builder s);
           directives := directives (response_builder s) |},
     {| response_builder :=
          {| speech := Some connection_problem;
             reprompt := reprompt (response_builder s);
             directives := directives (response_builder s) |};
        requests_sent :=
          requests_sent s ++ [(settings_url hi, settings_headers hi)];
        log := log s |}).
Proof.
  intros H. unfold handle, mbind, try_except, requests_get.
  rewrite H. reflexivity.
Qed.

Lemma handle_online_raise (zone : json) (now : Datetime.datetime) (e : exn) :
  requests_get_json w (settings_url hi) (settings_headers hi) = Ok zone ->
  datetime_now w zone = Ok now ->
  countdown w (persistent_attributes hi) now = Raise e ->
  handle w hi s
  = (Raise e,
     {| response_builder := response_builder s;
        requests_sent :=
          requests_sent s ++ [(settings_url hi, settings_headers hi)];
        log := log s ++ [DeviceApiResult zone] |}).
Proof.
  intros H Hn Hc. unfold handle, mbind, try_except, requests_get, lift.
  rewrite H. cbn. rewrite Hn, Hc. reflexivity.
Qed.

Lemma handle_online (zone : json) (now : Datetime.datetime) (l : Locals) :
  requests_get_json w (settings_url hi) (settings_headers hi) = Ok zone ->
  datetime_now w zone = Ok now ->
  countdown w (persistent_attributes hi) now = Ok l ->
  let said :=
    {| speech := Some (speak_output l);
       reprompt := reprompt (response_builder s);
       directives :=
         if supports_apl hi
         then directives (response_builder s) ++ [display_directive l]
         else directives (response_builder s) |} in
  handle w hi s
  = (Ok said,
     {| response_builder := said;
        requests_sent :=
          requests_sent s ++ [(settings_url hi, settings_headers hi)];
        log := log s ++ [DeviceApiResult zone] |}).
Proof.
  intros H Hn Hc. unfold handle, mbind, try_except, requests_get, lift.
  rewrite H. cbn. rewrite Hn, Hc. cbn.
  destruct (supports_apl hi); reflexivity.
Qed.

End HandlerFacts.

(** The countdown reads the world for the APL documents only. *)
Lemma countdown_any_world (w1 w2 : World) (r : BirthRecord)
      (now : Datetime.datetime) :
  match countdown w1 r now with
  | Ok l1 =>
      exists l2,
        countdown w2 r now = Ok l2
        /\ now_date l2 = now_date l1 /\ month_index l2 = month_index l1
        /\ next_birthday l2 = next_birthday l1
        /\ current_year l2 = current_year l1
        /\ age l2 = age l1 /\ ordinal l2 = ordinal l1
        /\ diff_days l2 = diff_days l1
        /\ speak_output l2 = speak_output l1
  | Raise e => countdown w2 r now = Raise e
  end.
Proof.
  unfold countdown.
  destruct (Datetime.new (Datetime.year now) (Datetime.month now)
              (Datetime.day now)) as [nd|]; [|reflexivity].
  cbn [bind].
  destruct (month_as_index (birth_month r)) as [m|]; [|reflexivity].
  cbn [bind].
  destruct (Datetime.new (Datetime.year now) m (birth_day r)) as [d0|];
    [|reflexivity].
  cbn [bind].
  destruct (if Datetime.gt nd d0 then _ else _) as [[next cy]|];
    [|reflexivity].
  cbn [bind fst snd]. rewrite ordinal_of_str. cbn [bind].
  destruct (Datetime.ne nd next); eexists; (split; [reflexivity|]);
    cbn; repeat split; reflexivity.
Qed.

(** ** The launch of the skill *)

(** What the handler raises, the catch-all handler turns into its apology. *)
Lemma launch_raise (w : World) (hi : HandlerInput) (s s' : State) (e : exn) :
  handle w hi s = (Raise e, s') ->
  spoken (launch_with_birthday w hi s) = Some CatchAllExceptionHandler.sorry
  /\ log (snd (launch_with_birthday w hi s)) = (log s' ++ [ErrorRecord e])%list.
Proof.
  intros H. unfold launch_with_birthday. rewrite H. split; reflexivity.
Qed.

(** An answer of the Settings API that is no time zone is not caught by the
    handler: [timezone] raises outside the [try] block. *)
Lemma launch_unknown_zone
      (w : World) (hi : HandlerInput) (s : State) (zone : json) (e : exn) :
  requests_get_json w (settings_url hi) (settings_headers hi) = Ok zone ->
  datetime_now w zone = Raise e ->
  fst (handle w hi s) = Raise e
  /\ spoken (launch_with_birthday w hi s) = Some CatchAllExceptionHandler.sorry.
Proof.
  intros Hz Hn.
  assert (exists s', handle w hi s = (Raise e, s')) as [s' H].
  { unfold handle, mbind, try_except, requests_get, lift.
    rewrite Hz. cbn. rewrite Hn. eexists. reflexivity. }
  split; [rewrite H; reflexivity | exact (proj1 (launch_raise w hi s s' e H))].
Qed.

(** A month that the table does not hold ends the request with the apology
    of the catch-all handler. *)
Lemma launch_unknown_month
      (w : World) (hi : HandlerInput) (s : State) (zone : json)
      (now : Datetime.datetime) (e : exn) :
  requests_get_json w (settings_url hi) (settings_headers hi) = Ok zone ->
  datetime_now w zone = Ok now ->
  Datetime.valid now ->
  month_as_index (birth_month (persistent_attributes hi)) = Raise e ->
  fst (handle w hi s) = Raise ValueError
  /\ spoken (launch_with_birthday w hi s) = Some CatchAllExceptionHandler.sorry.
Proof.
  intros Hz Hn Hv Hm.
  pose proof (month_as_index_raise _ _ Hm) as [-> _].
  assert (countdown w (persistent_attributes hi) now = Raise ValueError) as Hc.
  { unfold countdown. rewrite Hv. cbn [bind]. rewrite Hm. reflexivity. }
  pose proof (handle_online_raise w hi s zone now _ Hz Hn Hc) as H.
  split; [rewrite H; reflexivity | exact (proj1 (launch_raise w hi s _ _ H))].
Qed.

(** ** Checks on concrete inputs *)

Example title_of_mixed_case : PyStr.title "jANUARY" = "January".
Proof. reflexivity. Qed.

Example title_after_a_digit : PyStr.title "a1b" = "A1B".
Proof. reflexivity. Qed.

Example str_of_2023 : PyStr.str 2023 = "2023".
Proof. reflexivity. Qed.

Example str_of_minus_40 : PyStr.str (-40) = "-40".
Proof. reflexivity. Qed.

Example str_of_0 : PyStr.str 0 = "0".
Proof. reflexivity. Qed.

Example replace_leftmost_first : PyStr.replace "aa" "b" "aaaaa" = "bba".
Proof. reflexivity. Qed.

Example replace_of_empty : PyStr.replace "" "-" "abc" = "-a-b-c-".
Proof. reflexivity. Qed.

Example ordinal_of_2023_11_06 : Datetime.toordinal (Datetime.mk 2023 11 6) = 738830.
Proof. reflexivity. Qed.

Example ordinal_of_first_day : Datetime.toordinal (Datetime.mk 1 1 1) = 1.
Proof. reflexivity. Qed.

Example february_29_in_2023 : Datetime.new 2023 2 29 = Raise ValueError.
Proof. reflexivity. Qed.

Example february_29_in_2024 : Datetime.new 2024 2 29 = Ok (Datetime.mk 2024 2 29).
Proof. reflexivity. Qed.

Example month_zero : Datetime.new 2023 0 6 = Raise ValueError.
Proof. reflexivity. Qed.

(** The scenario of a birthday on 1 January seen on 2023-06-15. *)
Example born_on_new_year :
  exists l,
    countdown (world_on (Datetime.mk 2023 6 15)) (born 1990 "January" 1)
              (Datetime.mk 2023 6 15) = Ok l
    /\ next_birthday l = Datetime.mk 2024 1 1
    /\ age l = "34"
    /\ diff_days l = Some 200
    /\ speak_output l
       = "Welcome back. It looks like there are 200 days until your 34th birthday".
Proof. eexists. split; [reflexivity|]. repeat split. Qed.

(** A birthday on 29 February, seen after it in a leap year: the date of the
    next year does not exist. *)
Example born_on_leap_day :
  countdown (world_on (Datetime.mk 2024 3 1)) (born 2000 "February" 29)
            (Datetime.mk 2024 3 1) = Raise ValueError.
Proof. reflexivity. Qed.

(** The empty month string is found at index 0, which is no month. *)
Example empty_month :
  month_as_index "" = Ok 0
  /\ countdown (world_on (Datetime.mk 2023 11 6)) (born 2014 "" 6)
               (Datetime.mk 2023 11 6) = Raise ValueError.
Proof. split; reflexivity. Qed.

(** * The claims *)

(** C1.  Take a stored birthday whose month is found in the table, and a
    current date [now] such that the birthday of this year,
    [date(now.year, monthIndex, day)], exists.  If [now] is strictly after
    it, the next occurrence used is [date(now.year + 1, monthIndex, day)]
    and the age reached is [now.year + 1 - year] (and when that date does
    not exist the countdown raises the constructor's error); otherwise the
    next occurrence is [date(now.year, monthIndex, day)] and the age reached
    is [now.year - year]. *)
Theorem next_occurrence_and_age
        (w : World) (r : BirthRecord) (now d0 : Datetime.datetime) (m : Z) :
  Datetime.valid now ->
  month_as_index (birth_month r) = Ok m ->
  Datetime.new (Datetime.year now) m (birth_day r) = Ok d0 ->
  (Datetime.gt now d0 = true ->
   (forall d1,
       Datetime.new (Datetime.year now + 1) m (birth_day r) = Ok d1 ->
       exists l,
         countdown w r now = Ok l
         /\ next_birthday l = d1
         /\ ageReached (outcome r l) = Datetime.year now + 1 - birth_year r
         /\ age l = PyStr.str (Datetime.year now + 1 - birth_year r))
   /\ (forall e,
          Datetime.new (Datetime.year now + 1) m (birth_day r) = Raise e ->
          countdown w r now = Raise e))
  /\ (Datetime.gt now d0 = false ->
      exists l,
        countdown w r now = Ok l
        /\ next_birthday l = d0
        /\ ageReached (outcome r l) = Datetime.year now - birth_year r
        /\ age l = PyStr.str (Datetime.year now - birth_year r)).
Proof.
  intros Hnow Hm Hd0. split.
  - intros Hgt. split.
    + intros d1 Hd1.
      destruct (countdown_runs w r now d0 d1 m (Datetime.year now + 1)
                  Hnow Hm Hd0) as (l & Hl & _ & _ & Hn & Hcy & Hage & _).
      { rewrite Hgt. split; [exact Hd1 | reflexivity]. }
      exists l. unfold outcome. cbn [ageReached]. rewrite Hcy. auto.
    + intros e He. exact (countdown_no_next_year w r now d0 m e Hnow Hm Hd0 Hgt He).
  - intros Hgt.
    destruct (countdown_runs w r now d0 d0 m (Datetime.year now) Hnow Hm Hd0)
      as (l & Hl & _ & _ & Hn & Hcy & Hage & _).
    { rewrite Hgt. split; reflexivity. }
    exists l. unfold outcome. cbn [ageReached]. rewrite Hcy. auto.
Qed.

Lemma next_occurrence_and_age_witness :
  exists l,
    countdown (world_on (Datetime.mk 2023 6 15)) (born 1990 "January" 1)
              (Datetime.mk 2023 6 15) = Ok l
    /\ next_birthday l = Datetime.mk 2024 1 1
    /\ ageReached (outcome (born 1990 "January" 1) l) = 2023 + 1 - 1990
    /\ age l = PyStr.str (2023 + 1 - 1990).
Proof.
  apply (proj1 (next_occurrence_and_age
                  (world_on (Datetime.mk 2023 6 15)) (born 1990 "January" 1)
                  (Datetime.mk 2023 6 15) (Datetime.mk 2023 1 1) 1
                  eq_refl eq_refl eq_refl) eq_refl).
  reflexivity.
Defined.

(** C2.  After a countdown, the days until the next occurrence are 0 exactly
    when today is the birthday: when it is not, the difference that the
    handler computes is the absolute day difference and is at least 1, and
    when it is, the handler computes no difference and the two dates are 0
    days apart. *)
Theorem days_zero_iff_today
        (w : World) (r : BirthRecord) (now : Datetime.datetime) (l : Locals) :
  countdown w r now = Ok l ->
  (daysUntilNext (outcome r l) = 0 <-> isToday (outcome r l) = true)
  /\ (isToday (outcome r l) = false ->
      diff_days l = Some (daysUntilNext (outcome r l))
      /\ 1 <= daysUntilNext (outcome r l))
  /\ (isToday (outcome r l) = true ->
      diff_days l = None
      /\ Datetime.sub_days (now_date l) (next_birthday l) = 0).
Proof.
  intros H.
  destruct (countdown_facts w r now l H)
    as (Hnow & Hnext & Hnd & _ & _ & Hdiff & _).
  unfold outcome. cbn [isToday daysUntilNext]. rewrite Hnd.
  destruct (Datetime.ne now (next_birthday l)) eqn:E; cbn [negb].
  - pose proof (sub_days_ne _ _ Hnow Hnext E) as Hge.
    split; [split; [lia | discriminate]|].
    split; [intros _; split; [exact Hdiff | exact Hge] | discriminate].
  - apply ne_false in E. rewrite <- E, sub_days_same.
    split; [split; reflexivity|].
    split; [discriminate | intros _; split; [exact Hdiff | reflexivity]].
Qed.

Lemma days_zero_iff_today_witness :
  exists l,
    countdown (world_on (Datetime.mk 2023 11 5)) (born 2014 "November" 6)
              (Datetime.mk 2023 11 5) = Ok l
    /\ diff_days l = Some (daysUntilNext (outcome (born 2014 "November" 6) l))
    /\ 1 <= daysUntilNext (outcome (born 2014 "November" 6) l).
Proof.
  eexists. split; [reflexivity|].
  apply (proj1 (proj2 (days_zero_iff_today
                         (world_on (Datetime.mk 2023 11 5))
                         (born 2014 "November" 6) (Datetime.mk 2023 11 5) _
                         eq_refl))).
  reflexivity.
Defined.

(** C3, as stated, fails: on 2023-11-05 a birthday on November 6 is not
    today, and the reference year is 2023, not 2024. *)
Lemma reference_year_before_birthday :
  exists l d0,
    countdown (world_on (Datetime.mk 2023 11 5)) (born 2014 "November" 6)
              (Datetime.mk 2023 11 5) = Ok l
    /\ Datetime.new 2023 (month_index l) 6 = Ok d0
    /\ Datetime.mk 2023 11 5 <> d0
    /\ current_year l = 2023
    /\ current_year l <> 2023 + 1.
Proof.
  eexists. eexists. split; [reflexivity|].
  split; [reflexivity|].
  repeat split; cbn; discriminate.
Qed.

(** C3, amended.  When the birthday of this year exists: if [now] is that
    date or an earlier one, the reference year of the age is [now.year]; if
    [now] is after it, the reference year is [now.year + 1]. *)
Theorem reference_year
        (w : World) (r : BirthRecord) (now d0 : Datetime.datetime) (m : Z) :
  Datetime.valid now ->
  month_as_index (birth_month r) = Ok m ->
  Datetime.new (Datetime.year now) m (birth_day r) = Ok d0 ->
  ((now = d0 \/ Datetime.gt d0 now = true) ->
   exists l,
     countdown w r now = Ok l
     /\ current_year l = Datetime.year now
     /\ ageReached (outcome r l) = Datetime.year now - birth_year r)
  /\ (Datetime.gt now d0 = true ->
      (forall l, countdown w r now = Ok l ->
                 current_year l = Datetime.year now + 1
                 /\ ageReached (outcome r l)
                    = Datetime.year now + 1 - birth_year r)
      /\ (forall d1,
             Datetime.new (Datetime.year now + 1) m (birth_day r) = Ok d1 ->
             exists l, countdown w r now = Ok l)).
Proof.
  intros Hnow Hm Hd0. split.
  - intros Hle. apply gt_false in Hle.
    destruct (countdown_runs w r now d0 d0 m (Datetime.year now) Hnow Hm Hd0)
      as (l & Hl & _ & _ & _ & Hcy & _).
    { rewrite Hle. split; reflexivity. }
    exists l. unfold outcome. cbn [ageReached]. rewrite Hcy. auto.
  - intros Hgt. split.
    + intros l Hl.
      destruct (countdown_inv w r now l Hl) as (_ & d0' & Hm' & Hd0' & Hn).
      rewrite Hm in Hm'. injection Hm' as Hmi. rewrite <- Hmi in Hd0'.
      rewrite Hd0 in Hd0'. injection Hd0' as <-.
      rewrite Hgt in Hn. destruct Hn as [_ Hcy].
      unfold outcome. cbn [ageReached]. rewrite Hcy. auto.
    + intros d1 Hd1.
      destruct (countdown_runs w r now d0 d1 m (Datetime.year now + 1)
                  Hnow Hm Hd0) as (l & Hl & _).
      { rewrite Hgt. split; [exact Hd1 | reflexivity]. }
      exists l. exact Hl.
Qed.

Lemma reference_year_witness :
  exists l,
    countdown (world_on (Datetime.mk 2023 11 5)) (born 2014 "November" 6)
              (Datetime.mk 2023 11 5) = Ok l
    /\ current_year l = 2023
    /\ ageReached (outcome (born 2014 "November" 6) l) = 2023 - 2014.
Proof.
  apply (proj1 (reference_year
                  (world_on (Datetime.mk 2023 11 5)) (born 2014 "November" 6)
                  (Datetime.mk 2023 11 5) (Datetime.mk 2023 11 6) 11
                  eq_refl eq_refl eq_refl)).
  right. reflexivity.
Defined.

(** C4, as stated, fails: the ages -1 and 9 are equal modulo 10, and the
    countdown gives the first "st" and the second "th". *)
Lemma ordinal_not_by_mod_10 :
  exists l1 l2,
    countdown (world_on (Datetime.mk 2023 11 5)) (born 2024 "November" 6)
              (Datetime.mk 2023 11 5) = Ok l1
    /\ countdown (world_on (Datetime.mk 2023 11 5)) (born 2014 "November" 6)
                 (Datetime.mk 2023 11 5) = Ok l2
    /\ ageReached (outcome (born 2024 "November" 6) l1) = -1
    /\ ageReached (outcome (born 2014 "November" 6) l2) = 9
    /\ (-1) mod 10 = 9 mod 10
    /\ ordinal l1 = "st"
    /\ ordinal l2 = "th".
Proof.
  eexists. eexists. split; [reflexivity|]. split; [reflexivity|].
  repeat split.
Qed.

(** C4, amended.  The ordinal suffix is a function of the last decimal digit
    of the age as it is written, that is of [|ageReached| mod 10], which is
    [ageReached mod 10] for an age that is not negative: 1 gives "st", 2
    gives "nd", 3 gives "rd" and every other digit gives "th".  There is no
    exception for the teens: 11, 12 and 13 get "st", "nd" and "rd". *)
Theorem ordinal_by_last_digit :
  (forall n : Z, ordinal_of (PyStr.str n) = Ok (suffix_of_digit (last_digit n)))
  /\ (forall n : Z, 0 <= n -> last_digit n = n mod 10)
  /\ (forall (w : World) (r : BirthRecord) (now : Datetime.datetime) (l : Locals),
         countdown w r now = Ok l ->
         age l = PyStr.str (ageReached (outcome r l))
         /\ ordinal l = suffix_of_digit (last_digit (ageReached (outcome r l))))
  /\ ordinal_of (PyStr.str 11) = Ok "st"
  /\ ordinal_of (PyStr.str 12) = Ok "nd"
  /\ ordinal_of (PyStr.str 13) = Ok "rd".
Proof.
  split; [exact ordinal_of_str|].
  split; [intros n Hn; unfold last_digit; rewrite Z.abs_eq by exact Hn; reflexivity|].
  split; [|repeat split].
  intros w r now l H.
  destruct (countdown_facts w r now l H) as (_ & _ & _ & Hage & Hord & _).
  unfold outcome. cbn [ageReached]. auto.
Qed.

Lemma ordinal_by_last_digit_witness :
  last_digit 21 = 21 mod 10
  /\ ordinal_of (PyStr.str 21) = Ok (suffix_of_digit (last_digit 21)).
Proof.
  split.
  - apply (proj1 (proj2 ordinal_by_last_digit) 21). lia.
  - apply (proj1 ordinal_by_last_digit 21).
Defined.

(** C5, as stated, fails: "Janzzz" is, letter case apart, neither a full
    month name nor a 3-letter abbreviation, and the conversion does not
    fail on it. *)
Lemma month_without_match_accepted :
  ~ (forall s : string,
        names_a_month s = false -> exists e, month_as_index s = Raise e).
Proof.
  intros H. destruct (H "Janzzz" eq_refl) as [e He]. discriminate He.
Qed.

(** C5, amended.  The conversion title-cases the first three characters of
    the stored month string and looks them up in the table of the month
    abbreviations.  A full month name or a 3-letter abbreviation, in any
    letter case, gives the index of its month, from 1 to 12; a string whose
    title-cased 3-character prefix is not in the table raises ValueError,
    and "Smarch" is such a string. *)
Theorem month_conversion :
  (forall (s : string) (i : Z),
      1 <= i <= 12 -> names_month s i = true -> month_as_index s = Ok i)
  /\ (forall s : string,
         ~ In (PyStr.title (PyStr.slice_to 3 s)) Calendar.month_abbr ->
         month_as_index s = Raise ValueError)
  /\ names_a_month "Smarch" = false
  /\ month_as_index "Smarch" = Raise ValueError.
Proof.
  split; [|split; [exact month_as_index_not_in | split; reflexivity]].
  intros s i Hi Hn. unfold names_month in Hn.
  apply orb_prop in Hn.
  apply month_cases in Hi.
  repeat (destruct Hi as [-> | Hi]); [.. | subst i];
    (destruct Hn as [Hn | Hn];
     apply month_as_index_same_letters in Hn; rewrite Hn; reflexivity).
Qed.

Lemma month_conversion_witness : month_as_index "sEPTEMBER" = Ok 9.
Proof.
  apply (proj1 month_conversion "sEPTEMBER" 9); [lia | reflexivity].
Defined.

(** C6.  For the birthday 2014, November, 6 and the current date 2023-11-06,
    today is the birthday, the age reached is 9 and the phrase is exactly
    "Happy 9th birthday!"; the handler speaks it when the time zone is
    resolved to that date. *)
Theorem happy_9th_birthday
        (w : World) (hi : HandlerInput) (s : State) (zone : json) :
  persistent_attributes hi = born 2014 "November" 6 ->
  requests_get_json w (settings_url hi) (settings_headers hi) = Ok zone ->
  datetime_now w zone = Ok (Datetime.mk 2023 11 6) ->
  (exists l,
      countdown w (born 2014 "November" 6) (Datetime.mk 2023 11 6) = Ok l
      /\ isToday (outcome (born 2014 "November" 6) l) = true
      /\ ageReached (outcome (born 2014 "November" 6) l) = 9
      /\ speak_output l = "Happy 9th birthday!")
  /\ spoken (handle w hi s) = Some "Happy 9th birthday!".
Proof.
  intros Hr Hz Hn.
  assert (exists l,
             countdown w (born 2014 "November" 6) (Datetime.mk 2023 11 6) = Ok l
             /\ isToday (outcome (born 2014 "November" 6) l) = true
             /\ ageReached (outcome (born 2014 "November" 6) l) = 9
             /\ speak_output l = "Happy 9th birthday!") as Hl.
  { eexists. split; [vm_compute; reflexivity|]. repeat split. }
  split; [exact Hl|].
  destruct Hl as (l & Hl & _ & _ & Hs).
  rewrite <- Hr in Hl.
  rewrite (handle_online w hi s zone _ l Hz Hn Hl).
  unfold spoken. cbn [fst speech]. rewrite Hs. reflexivity.
Qed.

Lemma happy_9th_birthday_witness :
  spoken (handle (world_on (Datetime.mk 2023 11 6))
                 (a_device (born 2014 "November" 6) true) initial_state)
  = Some "Happy 9th birthday!".
Proof.
  apply (proj2 (happy_9th_birthday
                  (world_on (Datetime.mk 2023 11 6))
                  (a_device (born 2014 "November" 6) true) initial_state
                  (JString "America/Los_Angeles") eq_refl eq_refl eq_refl)).
Defined.

(** C7.  For the birthday 2014, November, 6 and the current date 2023-11-05,
    today is not the birthday, there is 1 day until the next one, and the
    phrase of the countdown is in the singular: "is" and "day" stand where
    the plural has "are" and "days". *)
Theorem one_day_until_birthday
        (w : World) (hi : HandlerInput) (s : State) (zone : json) :
  persistent_attributes hi = born 2014 "November" 6 ->
  requests_get_json w (settings_url hi) (settings_headers hi) = Ok zone ->
  datetime_now w zone = Ok (Datetime.mk 2023 11 5) ->
  (exists l,
      countdown w (born 2014 "November" 6) (Datetime.mk 2023 11 5) = Ok l
      /\ isToday (outcome (born 2014 "November" 6) l) = false
      /\ daysUntilNext (outcome (born 2014 "November" 6) l) = 1
      /\ diff_days l = Some 1
      /\ speak_output l
         = "Welcome back. It looks like there is 1 day until your 9th birthday")
  /\ spoken (handle w hi s)
     = Some "Welcome back. It looks like there is 1 day until your 9th birthday".
Proof.
  intros Hr Hz Hn.
  assert (exists l,
             countdown w (born 2014 "November" 6) (Datetime.mk 2023 11 5) = Ok l
             /\ isToday (outcome (born 2014 "November" 6) l) = false
             /\ daysUntilNext (outcome (born 2014 "November" 6) l) = 1
             /\ diff_days l = Some 1
             /\ speak_output l
                = "Welcome back. It looks like there is 1 day until your 9th birthday")
    as Hl.
  { eexists. split; [vm_compute; reflexivity|]. repeat split. }
  split; [exact Hl|].
  destruct Hl as (l & Hl & _ & _ & _ & Hs).
  rewrite <- Hr in Hl.
  rewrite (handle_online w hi s zone _ l Hz Hn Hl).
  unfold spoken. cbn [fst speech]. rewrite Hs. reflexivity.
Qed.

Lemma one_day_until_birthday_witness :
  spoken (handle (world_on (Datetime.mk 2023 11 5))
                 (a_device (born 2014 "November" 6) false) initial_state)
  = Some "Welcome back. It looks like there is 1 day until your 9th birthday".
Proof.
  apply (proj2 (one_day_until_birthday
                  (world_on (Datetime.mk 2023 11 5))
                  (a_device (born 2014 "November" 6) false) initial_state
                  (JString "America/Los_Angeles") eq_refl eq_refl eq_refl)).
Defined.

(** C8.  The countdown is a function of the stored birthday and of the
    resolved current date: two runs of the handler, on whatever devices,
    worlds and states, that read the same birthday and resolve the same
    date, end alike, both with the same exception or both with the same
    outcome (today or not, age reached, days until the next birthday) and
    the same phrase, and they speak the same.  The countdown itself changes
    no state: a run of the handler sends one request, logs its answer and
    writes to the response builder only. *)
Theorem countdown_deterministic
        (w1 w2 : World) (hi1 hi2 : HandlerInput) (s1 s2 : State)
        (zone1 zone2 : json) (now : Datetime.datetime) :
  persistent_attributes hi1 = persistent_attributes hi2 ->
  requests_get_json w1 (settings_url hi1) (settings_headers hi1) = Ok zone1 ->
  requests_get_json w2 (settings_url hi2) (settings_headers hi2) = Ok zone2 ->
  datetime_now w1 zone1 = Ok now ->
  datetime_now w2 zone2 = Ok now ->
  match countdown w1 (persistent_attributes hi1) now,
        countdown w2 (persistent_attributes hi2) now with
  | Ok l1, Ok l2 =>
      outcome (persistent_attributes hi1) l1
      = outcome (persistent_attributes hi2) l2
      /\ diff_days l1 = diff_days l2
      /\ speak_output l1 = speak_output l2
  | Raise e1, Raise e2 => e1 = e2
  | _, _ => False
  end
  /\ spoken (handle w1 hi1 s1) = spoken (handle w2 hi2 s2)
  /\ snd (lift (countdown w1 (persistent_attributes hi1) now) s1) = s1
  /\ requests_sent (snd (handle w1 hi1 s1))
     = (requests_sent s1 ++ [(settings_url hi1, settings_headers hi1)])%list
  /\ log (snd (handle w1 hi1 s1)) = (log s1 ++ [DeviceApiResult zone1])%list.
Proof.
  intros Hr Hz1 Hz2 Hn1 Hn2. rewrite <- Hr.
  pose proof (countdown_any_world w1 w2 (persistent_attributes hi1) now) as Hw.
  destruct (countdown w1 (persistent_attributes hi1) now) as [l1|e1] eqn:H1.
  - destruct Hw as (l2 & H2 & F1 & _ & F3 & F4 & _ & _ & F7 & F8).
    rewrite H2.
    pose proof H2 as H2'. rewrite Hr in H2'.
    rewrite (handle_online w1 hi1 s1 zone1 now l1 Hz1 Hn1 H1).
    rewrite (handle_online w2 hi2 s2 zone2 now l2 Hz2 Hn2 H2').
    unfold outcome, spoken. cbn [fst snd speech requests_sent log lift].
    rewrite F1, F3, F4, F7, F8. repeat split.
  - rewrite Hw.
    pose proof Hw as H2'. rewrite Hr in H2'.
    rewrite (handle_online_raise w1 hi1 s1 zone1 now e1 Hz1 Hn1 H1).
    rewrite (handle_online_raise w2 hi2 s2 zone2 now e1 Hz2 Hn2 H2').
    unfold spoken. cbn [fst snd requests_sent log lift]. repeat split.
Qed.

Lemma countdown_deterministic_witness :
  spoken (handle (world_on (Datetime.mk 2023 6 15))
                 (a_device (born 1990 "jan" 1) true) initial_state)
  = spoken (handle (world_elsewhere (Datetime.mk 2023 6 15))
                   (a_device (born 1990 "jan" 1) false) initial_state).
Proof.
  apply (proj1 (proj2 (countdown_deterministic
                         (world_on (Datetime.mk 2023 6 15))
                         (world_elsewhere (Datetime.mk 2023 6 15))
                         (a_device (born 1990 "jan" 1) true)
                         (a_device (born 1990 "jan" 1) false)
                         initial_state initial_state
                         (JString "America/Los_Angeles") (JString "Europe/Paris")
                         (Datetime.mk 2023 6 15)
                         eq_refl eq_refl eq_refl eq_refl eq_refl))).
Defined.

(** C9, as stated, fails: the Settings API answers, with a name that is no
    time zone; the resolution has failed, and the handler does not return
    the sentence of the connection problem: it raises, outside its [try]
    block, and the user hears the apology of the catch-all handler. *)
Lemma timezone_answer_without_zone :
  requests_get_json world_no_zone
    (settings_url (a_device (born 2014 "November" 6) true))
    (settings_headers (a_device (born 2014 "November" 6) true))
  = Ok (JString "Mars/Olympus")
  /\ datetime_now world_no_zone (JString "Mars/Olympus")
     = Raise UnknownTimeZoneError
  /\ fst (handle world_no_zone (a_device (born 2014 "November" 6) true)
                 initial_state)
     = Raise UnknownTimeZoneError
  /\ spoken (launch_with_birthday world_no_zone
               (a_device (born 2014 "November" 6) true) initial_state)
     = Some "Sorry, I had trouble doing what you asked. Please try again."
  /\ spoken (launch_with_birthday world_no_zone
               (a_device (born 2014 "November" 6) true) initial_state)
     <> Some "There was a problem connecting to the service".
Proof.
  repeat split. discriminate.
Qed.

(** C9, amended.  When the call to the Settings API raises, inside the
    [try] block, the handler sends no second request and computes no
    countdown: it returns the response that says "There was a problem
    connecting to the service", whatever the stored birthday and the clock
    are, adds no directive to it and raises nothing, so that the catch-all
    handler has nothing to take over.  When the call answers and the answer
    is no time zone, the handler does not catch the failure: it raises
    after its one request, with nothing said, and the user hears the
    apology of the catch-all handler; no countdown is computed either. *)
Theorem timezone_failure (w : World) (hi : HandlerInput) (s : State) :
  (forall e : exn,
      requests_get_json w (settings_url hi) (settings_headers hi) = Raise e ->
      fst (handle w hi s)
      = Ok {| speech := Some "There was a problem connecting to the service";
              reprompt := reprompt (response_builder s);
              directives := directives (response_builder s) |}
      /\ fst (handle w hi initial_state)
         = Ok {| speech := Some "There was a problem connecting to the service";
                 reprompt := None;
                 directives := [] |}
      /\ requests_sent (snd (handle w hi s))
         = (requests_sent s ++ [(settings_url hi, settings_headers hi)])%list
      /\ log (snd (handle w hi s)) = log s
      /\ launch_with_birthday w hi s = handle w hi s
      /\ (forall (w' : World) (hi' : HandlerInput) (e' : exn),
             requests_get_json w' (settings_url hi') (settings_headers hi')
             = Raise e' ->
             fst (handle w' hi' s) = fst (handle w hi s)))
  /\ (forall (zone : json) (e : exn),
         requests_get_json w (settings_url hi) (settings_headers hi) = Ok zone ->
         datetime_now w zone = Raise e ->
         fst (handle w hi s) = Raise e
         /\ response_builder (snd (handle w hi s)) = response_builder s
         /\ requests_sent (snd (handle w hi s))
            = (requests_sent s ++ [(settings_url hi, settings_headers hi)])%list
         /\ fst (launch_with_birthday w hi s)
            = Ok {| speech :=
                      Some "Sorry, I had trouble doing what you asked. Please try again.";
                    reprompt := reprompt (response_builder s);
                    directives := directives (response_builder s) |}).
Proof.
  split.
  - intros e H.
    unfold launch_with_birthday.
    rewrite !(handle_offline w hi _ e H). cbn [fst snd requests_sent log].
    repeat split.
    intros w' hi' e' H'. rewrite (handle_offline w' hi' _ e' H'). reflexivity.
  - intros zone e Hz Hn.
    assert (handle w hi s
            = (Raise e,
               {| response_builder := response_builder s;
                  requests_sent :=
                    requests_sent s ++ [(settings_url hi, settings_headers hi)];
                  log := log s ++ [DeviceApiResult zone] |})) as H.
    { unfold handle, mbind, try_except, requests_get, lift.
      rewrite Hz. cbn. rewrite Hn. reflexivity. }
    unfold launch_with_birthday. rewrite H.
    repeat split.
Qed.

Lemma timezone_failure_witness :
  fst (handle (world_offline (Datetime.mk 2023 11 6))
              (a_device (born 2014 "November" 6) true) initial_state)
  = Ok {| speech := Some "There was a problem connecting to the service";
          reprompt := None;
          directives := [] |}.
Proof.
  apply (proj1 (proj1 (timezone_failure
                         (world_offline (Datetime.mk 2023 11 6))
                         (a_device (born 2014 "November" 6) true)
                         initial_state)
                      RequestException eq_refl)).
Defined.

(** * More of the countdown *)

Section YearFacts.

Import Datetime.

Ltac in_tables :=
  cbv [nth Z.to_nat Pos.to_nat Pos.iter_op Init.Nat.add
       DAYS_IN_MONTH DAYS_BEFORE_MONTH
       Z.eqb Z.ltb Z.compare Pos.eqb Pos.compare Pos.compare_cont andb].

Lemma toordinal_le (a b : datetime) :
  valid a -> valid b -> gt a b = false -> toordinal a <= toordinal b.
Proof.
  intros Ha Hb H. apply gt_false in H. destruct H as [-> | H]; [lia|].
  pose proof (toordinal_lt _ _ Ha Hb H). lia.
Qed.

(** The same day and month one year later is 365 or 366 days later. *)
Lemma next_year_step (y m d : Z) :
  1 <= m <= 12 -> 365 <= ymd2ord (y + 1) m d - ymd2ord y m d <= 366.
Proof.
  intros Hm. unfold ymd2ord. rewrite days_before_year_succ.
  unfold days_before_month, days_in_year.
  apply month_cases in Hm.
  repeat (destruct Hm as [-> | Hm]); [.. | subst m];
    destruct (is_leap y), (is_leap (y + 1)); in_tables; lia.
Qed.

(** Two dates of one year are at most 365 days apart. *)
Lemma same_year_span (a b : datetime) :
  valid a -> valid b -> year a = year b -> toordinal b - toordinal a <= 365.
Proof.
  unfold valid. intros Ha Hb Hy. apply new_inv in Ha, Hb.
  destruct Ha as (_ & _ & Hma & Hda), Hb as (_ & _ & Hmb & Hdb).
  pose proof (day_of_year_bounds _ _ _ Hma Hda) as Ba.
  pose proof (day_of_year_bounds _ _ _ Hmb Hdb) as Bb.
  unfold toordinal, ymd2ord. rewrite Hy in *.
  unfold days_in_year in *. destruct (is_leap (year b)); lia.
Qed.

Lemma leap_not_next (y : Z) : is_leap y = true -> is_leap (y + 1) = false.
Proof.
  unfold is_leap. intros H. apply andb_prop in H. destruct H as [H _].
  apply Z.eqb_eq in H.
  assert (((y + 1) mod 4 =? 0) = false) as ->; [|reflexivity].
  apply Z.eqb_neq. Z.to_euclidean_division_equations. lia.
Qed.

Lemma new_leap_day (y : Z) :
  1 <= y <= 9999 ->
  new y 2 29 = if is_leap y then Ok (mk y 2 29) else Raise ValueError.
Proof.
  intros Hy. unfold new, MINYEAR, MAXYEAR, days_in_month.
  replace ((1 <=? y) && (y <=? 9999)) with true
    by (symmetry; apply andb_true_intro; rewrite !Z.leb_le; lia).
  destruct (is_leap y); reflexivity.
Qed.

Lemma new_leap_day_next (y : Z) :
  is_leap y = true -> new (y + 1) 2 29 = Raise ValueError.
Proof.
  intros H. apply leap_not_next in H.
  unfold new, days_in_month. rewrite H.
  destruct ((MINYEAR <=? y + 1) && (y + 1 <=? MAXYEAR)); reflexivity.
Qed.

End YearFacts.

Section MoreCountdownFacts.

Import Datetime.

Variable w : World.
Variable r : BirthRecord.

Lemma countdown_no_this_year (now : datetime) (m : Z) (e : exn) :
  valid now ->
  month_as_index (birth_month r) = Ok m ->
  new (year now) m (birth_day r) = Raise e ->
  countdown w r now = Raise e.
Proof.
  intros Hnow Hm Hd0. unfold countdown.
  rewrite Hnow. cbn [bind]. rewrite Hm. cbn [bind]. rewrite Hd0. reflexivity.
Qed.

End MoreCountdownFacts.

(** X1.  After a countdown, the next birthday is the stored day in the month
    found, in the year that the age is counted to; it is never before the
    current date and at most 365 days after it, and the days announced when
    today is not the birthday are that distance, between 1 and 365. *)
Theorem next_birthday_within_a_year
        (w : World) (r : BirthRecord) (now : Datetime.datetime) (l : Locals) :
  countdown w r now = Ok l ->
  next_birthday l = Datetime.mk (current_year l) (month_index l) (birth_day r)
  /\ Datetime.gt now (next_birthday l) = false
  /\ 0 <= Datetime.sub_days (next_birthday l) now <= 365
  /\ (forall d, diff_days l = Some d ->
                d = Datetime.sub_days (next_birthday l) now /\ 1 <= d <= 365).
Proof.
  intros H.
  destruct (countdown_inv w r now l H) as (Hnow & d0 & Hm & Hd0 & Hn).
  destruct (countdown_facts w r now l H)
    as (_ & Hnext & Hnd & _ & _ & Hdiff & _).
  pose proof (new_inv _ _ _ _ Hd0) as (E0 & _ & Hmi & _).
  assert (next_birthday l
          = Datetime.mk (current_year l) (month_index l) (birth_day r)
          /\ Datetime.gt now (next_birthday l) = false
          /\ 0 <= Datetime.sub_days (next_birthday l) now <= 365)
    as (F1 & F2 & F3).
  { unfold Datetime.sub_days.
    destruct (Datetime.gt now d0) eqn:Hgt.
    - destruct Hn as [Hd1 Hcy].
      pose proof (new_inv _ _ _ _ Hd1) as (E1 & _).
      pose proof (toordinal_lt _ _ (new_is_valid _ _ _ _ Hd0) Hnow Hgt) as Hlt.
      pose proof (next_year_step (Datetime.year now) (month_index l)
                    (birth_day r) Hmi) as Hstep.
      assert (Datetime.gt (next_birthday l) now = true) as Hlater.
      { rewrite E1. unfold Datetime.gt. cbn [Datetime.year].
        replace (Datetime.year now <? Datetime.year now + 1) with true
          by (symmetry; apply Z.ltb_lt; lia).
        reflexivity. }
      pose proof (toordinal_lt _ _ Hnow Hnext Hlater) as Hlt'.
      split; [rewrite E1, Hcy; reflexivity|].
      split; [apply gt_asym; exact Hlater|].
      rewrite E1 in *. rewrite E0 in Hlt.
      unfold Datetime.toordinal in *.
      cbn [Datetime.year Datetime.month Datetime.day] in *. lia.
    - destruct Hn as [Hd Hcy]. subst d0.
      split; [rewrite E0 at 1; rewrite Hcy; reflexivity|].
      split; [exact Hgt|].
      pose proof (toordinal_le _ _ Hnow Hnext Hgt) as Hle.
      assert (Datetime.year now = Datetime.year (next_birthday l)) as Hy
          by (rewrite E0; reflexivity).
      pose proof (same_year_span _ _ Hnow Hnext Hy). lia. }
  split; [exact F1|]. split; [exact F2|]. split; [exact F3|].
  intros d Hd. rewrite Hdiff in Hd.
  destruct (Datetime.ne now (next_birthday l)) eqn:E; [|discriminate].
  injection Hd as <-.
  pose proof (sub_days_ne _ _ Hnow Hnext E) as Hge.
  unfold Datetime.sub_days in *. lia.
Qed.

Lemma next_birthday_within_a_year_witness :
  exists l,
    countdown (world_on (Datetime.mk 2023 6 15)) (born 1990 "January" 1)
              (Datetime.mk 2023 6 15) = Ok l
    /\ 0 <= Datetime.sub_days (next_birthday l) (Datetime.mk 2023 6 15) <= 365.
Proof.
  eexists. split; [reflexivity|].
  apply (proj1 (proj2 (proj2 (next_birthday_within_a_year
                                (world_on (Datetime.mk 2023 6 15))
                                (born 1990 "January" 1)
                                (Datetime.mk 2023 6 15) _ eq_refl)))).
Defined.

(** X3.  A birthday on 29 February: the countdown is computed only in a
    leap year and up to that day; in every other year, and in a leap year
    after 29 February, the handler raises ValueError. *)
Theorem leap_day_birthday
        (w : World) (r : BirthRecord) (now : Datetime.datetime) :
  Datetime.valid now ->
  month_as_index (birth_month r) = Ok 2 ->
  birth_day r = 29 ->
  (Datetime.is_leap (Datetime.year now) = true
   /\ Datetime.gt now (Datetime.mk (Datetime.year now) 2 29) = false ->
   exists l,
     countdown w r now = Ok l
     /\ next_birthday l = Datetime.mk (Datetime.year now) 2 29)
  /\ (Datetime.is_leap (Datetime.year now) = false
      \/ Datetime.gt now (Datetime.mk (Datetime.year now) 2 29) = true ->
      countdown w r now = Raise ValueError).
Proof.
  intros Hnow Hm Hd.
  pose proof (new_inv _ _ _ _ Hnow) as (_ & Hy & _).
  pose proof (new_leap_day _ Hy) as Hnew. rewrite <- Hd in Hnew.
  destruct (Datetime.is_leap (Datetime.year now)) eqn:Hleap.
  - split.
    + intros [_ Hgt].
      destruct (countdown_runs w r now _ (Datetime.mk (Datetime.year now) 2 29) 2
                  (Datetime.year now) Hnow Hm Hnew)
        as (l & Hl & _ & _ & Hn & _).
      { rewrite Hd, Hgt. split; reflexivity. }
      exists l. split; assumption.
    + intros [Hf | Hgt]; [discriminate|].
      apply (countdown_no_next_year w r now _ 2 ValueError Hnow Hm Hnew).
      * rewrite Hd. exact Hgt.
      * rewrite Hd. apply new_leap_day_next. exact Hleap.
  - split.
    + intros [Hf _]. discriminate.
    + intros _. exact (countdown_no_this_year w r now 2 ValueError Hnow Hm Hnew).
Qed.

Lemma leap_day_birthday_witness :
  countdown (world_on (Datetime.mk 2024 3 1)) (born 2000 "February" 29)
            (Datetime.mk 2024 3 1) = Raise ValueError.
Proof.
  apply (proj2 (leap_day_birthday
                  (world_on (Datetime.mk 2024 3 1)) (born 2000 "February" 29)
                  (Datetime.mk 2024 3 1) eq_refl eq_refl eq_refl)).
  right. reflexivity.
Defined.

Section PhraseFacts.

Import PyStr.

Lemma code_digit_char (d : Z) :
  0 <= d < 10 -> code (digit_char d) = (48 + Z.to_N d)%N.
Proof.
  intros H. unfold code, digit_char. apply N_ascii_embedding. lia.
Qed.

(** A character of a decimal numeral. *)
Lemma digits_chars (f : nat) (n : Z) (c : ascii) :
  0 <= n -> In c (list_ascii_of_string (digits f n)) ->
  (48 <= code c <= 57)%N.
Proof.
  revert n. induction f as [|f IH]; intros n Hn; simpl; [tauto|].
  destruct (n <? 10) eqn:E.
  - apply Z.ltb_lt in E. simpl. intros [<- | []].
    rewrite code_digit_char by lia. lia.
  - intros H.
    assert (forall s t, In c (list_ascii_of_string (s ++ t)) ->
                        In c (list_ascii_of_string s)
                        \/ In c (list_ascii_of_string t)) as Happ.
    { induction s as [|a s IHs]; simpl; intros t Ht; [tauto|].
      destruct Ht as [-> | Ht]; [tauto|]. apply IHs in Ht. tauto. }
    apply Happ in H. destruct H as [H | H].
    + apply (IH (n / 10)); [apply Z.div_pos; lia | exact H].
    + simpl in H. destruct H as [<- | []].
      pose proof (Z.mod_pos_bound n 10 ltac:(lia)).
      rewrite code_digit_char by lia. lia.
Qed.

Lemma str_chars (n : Z) (c : ascii) :
  In c (list_ascii_of_string (str n)) ->
  c = "-"%char \/ (48 <= code c <= 57)%N.
Proof.
  unfold str, str_nonneg. destruct (n <? 0) eqn:E.
  - apply Z.ltb_lt in E. cbn [list_ascii_of_string In].
    intros [<- | H]; [tauto|].
    right. apply digits_chars in H; [exact H | lia].
  - apply Z.ltb_ge in E. intros H.
    right. apply digits_chars in H; [exact H | lia].
Qed.

(** Where the first character of [old] does not occur, [replace] changes
    nothing. *)
Lemma replace_from_free (c0 : ascii) (old' new s t : string) :
  (forall c, In c (list_ascii_of_string s) -> c <> c0) ->
  replace_from (String c0 old') new O (s ++ t)
  = s ++ replace_from (String c0 old') new O t.
Proof.
  induction s as [|a s IH]; intros H; [reflexivity|].
  change (String a s ++ t) with (String a (s ++ t)).
  cbn [replace_from startswith].
  assert (Ascii.eqb c0 a = false) as ->.
  { apply Ascii.eqb_neq. intros ->. apply (H a); [left|]; reflexivity. }
  cbn [andb]. rewrite IH; [reflexivity|].
  intros c Hc. apply H. right. exact Hc.
Qed.

(** The two replacements on the phrase of one day. *)
Lemma singular_phrase (age ordinal : string) :
  (forall c, In c (list_ascii_of_string age) ->
             c <> "a"%char /\ c <> "d"%char) ->
  ordinal = "st" \/ ordinal = "nd" \/ ordinal = "rd" \/ ordinal = "th" ->
  replace "days" "day"
    (replace "are" "is"
       ("Welcome back. It looks like there are " ++ "1"
        ++ " days until your " ++ age ++ ordinal ++ " birthday"))
  = "Welcome back. It looks like there is 1 day until your "
    ++ age ++ ordinal ++ " birthday".
Proof.
  intros Hage Hord. unfold replace.
  assert (forall tail,
             replace_from "are" "is" O
               ("Welcome back. It looks like there are " ++ "1"
                ++ " days until your " ++ tail)
             = "Welcome back. It looks like there is 1 days until your "
               ++ replace_from "are" "is" O tail) as -> by reflexivity.
  rewrite (replace_from_free "a" "re" "is" age)
    by (intros c Hc; apply Hage; exact Hc).
  assert (replace_from "are" "is" O (ordinal ++ " birthday")
          = ordinal ++ " birthday") as ->
      by (destruct Hord as [-> | [-> | [-> | ->]]]; reflexivity).
  assert (forall tail,
             replace_from "days" "day" O
               ("Welcome back. It looks like there is 1 days until your "
                ++ tail)
             = "Welcome back. It looks like there is 1 day until your "
               ++ replace_from "days" "day" O tail) as -> by reflexivity.
  rewrite (replace_from_free "d" "ays" "day" age)
    by (intros c Hc; apply Hage; exact Hc).
  assert (replace_from "days" "day" O (ordinal ++ " birthday")
          = ordinal ++ " birthday") as ->
      by (destruct Hord as [-> | [-> | [-> | ->]]]; reflexivity).
  reflexivity.
Qed.

Lemma suffix_of_digit_cases (d : Z) :
  suffix_of_digit d = "st" \/ suffix_of_digit d = "nd"
  \/ suffix_of_digit d = "rd" \/ suffix_of_digit d = "th".
Proof.
  unfold suffix_of_digit.
  destruct (d =? 1); [tauto|]. destruct (d =? 2); [tauto|].
  destruct (d =? 3); tauto.
Qed.

Lemma slice_to_idem (n : nat) (s : string) :
  slice_to n (slice_to n s) = slice_to n s.
Proof.
  revert s. induction n as [|n IH]; intros [|c s]; simpl; try reflexivity.
  rewrite IH. reflexivity.
Qed.

End PhraseFacts.

(** The phrase that a finished countdown speaks, case by case. *)
Lemma speak_output_cases
        (w : World) (r : BirthRecord) (now : Datetime.datetime) (l : Locals) :
  countdown w r now = Ok l ->
  (diff_days l = Some 1 ->
   speak_output l
   = "Welcome back. It looks like there is 1 day until your "
     ++ age l ++ ordinal l ++ " birthday")
  /\ (forall d, diff_days l = Some d -> d <> 1 ->
                speak_output l
                = "Welcome back. It looks like there are " ++ PyStr.str d
                  ++ " days until your " ++ age l ++ ordinal l ++ " birthday")
  /\ (diff_days l = None ->
      speak_output l = "Happy " ++ age l ++ ordinal l ++ " birthday!").
Proof.
  intros H.
  destruct (countdown_facts w r now l H)
    as (_ & _ & _ & Hage & Hord & Hdiff & Hs).
  rewrite Hdiff, Hs.
  destruct (Datetime.ne now (next_birthday l)); cbv zeta.
  - split; [|split; [|discriminate]].
    + intros Hd. injection Hd as ->. cbn [Z.eqb Pos.eqb].
      change (PyStr.str 1) with "1".
      apply singular_phrase.
      * intros c Hc. rewrite Hage in Hc. apply str_chars in Hc.
        destruct Hc as [-> | Hc]; [split; discriminate|].
        split; intros ->; cbv in Hc; destruct Hc as [H1 H2];
          try (apply H1; reflexivity); try (apply H2; reflexivity).
      * rewrite Hord. apply suffix_of_digit_cases.
    + intros d Hd Hne. injection Hd as Hd. rewrite Hd.
      apply Z.eqb_neq in Hne. rewrite Hne. reflexivity.
  - split; [discriminate|]. split; [discriminate | reflexivity].
Qed.

(** X2.  The phrase of the countdown.  When one day is left, the two
    replacements change "are" into "is" and "days" into "day" and nothing
    else, whatever the age is: the phrase is "Welcome back. It looks like
    there is 1 day until your", the age with its ordinal, "birthday".  With
    more days the phrase is the plural one, and on the birthday it is the
    greeting. *)
Theorem phrase_of_the_countdown
        (w : World) (r : BirthRecord) (now : Datetime.datetime) (l : Locals) :
  countdown w r now = Ok l ->
  (diff_days l = Some 1 ->
   speak_output l
   = "Welcome back. It looks like there is 1 day until your "
     ++ age l ++ ordinal l ++ " birthday")
  /\ (forall d, diff_days l = Some d -> d <> 1 ->
                speak_output l
                = "Welcome back. It looks like there are " ++ PyStr.str d
                  ++ " days until your " ++ age l ++ ordinal l ++ " birthday")
  /\ (diff_days l = None ->
      speak_output l = "Happy " ++ age l ++ ordinal l ++ " birthday!").
Proof. exact (speak_output_cases w r now l). Qed.

Lemma phrase_of_the_countdown_witness :
  exists l,
    countdown (world_on (Datetime.mk 2023 11 5)) (born 2002 "nov" 6)
              (Datetime.mk 2023 11 5) = Ok l
    /\ speak_output l
       = "Welcome back. It looks like there is 1 day until your "
         ++ age l ++ ordinal l ++ " birthday".
Proof.
  eexists. split; [reflexivity|].
  apply (proj1 (phrase_of_the_countdown
                  (world_on (Datetime.mk 2023 11 5)) (born 2002 "nov" 6)
                  (Datetime.mk 2023 11 5) _ eq_refl)).
  reflexivity.
Defined.

(** X4.  The month lookup reads the first three characters of the month
    string, letter case apart: two strings that agree there are converted
    alike, to the same index or to the same error. *)
Theorem month_by_first_three_letters (s t : string) :
  same_letters (PyStr.slice_to 3 s) (PyStr.slice_to 3 t) = true ->
  month_as_index s = month_as_index t.
Proof.
  intros H. apply month_as_index_same_letters in H.
  unfold month_as_index in *. rewrite !slice_to_idem in H. exact H.
Qed.

Lemma month_by_first_three_letters_witness :
  month_as_index "NOV." = month_as_index "november".
Proof.
  apply (month_by_first_three_letters "NOV." "november"). reflexivity.
Defined.

(** * The handlers and the dispatch *)

Lemma can_handle_up (sw : SkillWorld) (env : RequestEnvelope) (b : attributes) :
  s3_up sw = true ->
  HasBirthdayLaunchRequest.can_handle sw env (fresh b)
  = (Done (has_birthday b && is_request_type "LaunchRequest" env), loaded b).
Proof.
  intros H. unfold HasBirthdayLaunchRequest.can_handle, kbind,
    get_persistent_attributes, fresh. cbn [cached]. rewrite H. reflexivity.
Qed.

Lemma dispatch_loaded (sw : SkillWorld) (env : RequestEnvelope) (b : attributes) :
  s3_up sw = true ->
  dispatch_request request_handlers sw env (fresh b)
  = if has_birthday b && is_request_type "LaunchRequest" env
    then HasBirthdayLaunchRequest.handle sw env (loaded b)
    else if LaunchRequestHandler.can_handle env
    then lift_M (LaunchRequestHandler.handle (world sw) env) (loaded b)
    else if CaptureBirthdayIntentHandler.can_handle env
    then CaptureBirthdayIntentHandler.handle sw env (loaded b)
    else if HelpIntentHandler.can_handle env
    then lift_M (HelpIntentHandler.handle (world sw) env) (loaded b)
    else if CancelOrStopIntentHandler.can_handle env
    then lift_M (CancelOrStopIntentHandler.handle (world sw) env) (loaded b)
    else if FallbackIntentHandler.can_handle env
    then FallbackIntentHandler.handle env (loaded b)
    else if SessionEndedRequestHandler.can_handle env
    then lift_M (SessionEndedRequestHandler.handle env) (loaded b)
    else if IntentReflectorHandler.can_handle env
    then IntentReflectorHandler.handle env (loaded b)
    else (Fault DispatchException, loaded b).
Proof.
  intros H. unfold request_handlers.
  cbn [dispatch_request handler_can_handle handler_handle].
  unfold kbind at 1. rewrite (can_handle_up sw env b H).
  destruct (has_birthday b && is_request_type "LaunchRequest" env);
    [reflexivity|].
  unfold kbind, kret.
  repeat match goal with
         | |- context [if ?c then _ else _] => destruct c; try reflexivity
         end.
Qed.

Lemma exception_answers (sw : SkillWorld) (env : RequestEnvelope)
      (b : attributes) (f : fault) (k : Skill) :
  effects sw env b k ->
  directives (response_builder (handler_state k)) = [] ->
  answered sw env b (exception_handle f k).
Proof.
  intros (_ & Hr & Hb) Hd.
  assert (effects sw env b (snd (exception_handle f k))
          /\ fst (exception_handle f k)
             = Done (response_builder (handler_state (snd (exception_handle f k))))
          /\ speech (response_builder (handler_state (snd (exception_handle f k))))
             = Some CatchAllExceptionHandler.sorry) as (He & Hf & Hs).
  { destruct f; cbn; (split; [|split; reflexivity]);
      (split; [left; exact Hd | split; [exact Hr | exact Hb]]). }
  split; [exact He|].
  eexists. split; [exact Hf|]. split; [reflexivity|].
  rewrite Hs. discriminate.
Qed.

Lemma handle_outcome (w : World) (hi : HandlerInput) :
  requests_sent (snd (handle w hi initial_state))
  = [(settings_url hi, settings_headers hi)]
  /\ match fst (handle w hi initial_state) with
     | Ok r =>
         r = response_builder (snd (handle w hi initial_state))
         /\ speech r <> None
         /\ (directives r = []
             \/ (supports_apl hi = true
                 /\ exists data, directives r = [apl_directive w data]))
     | Raise _ =>
         response_builder (snd (handle w hi initial_state)) = empty_response
     end.
Proof.
  destruct (requests_get_json w (settings_url hi) (settings_headers hi))
    as [zone|e] eqn:Hz.
  - destruct (datetime_now w zone) as [now|e] eqn:Hn.
    + destruct (countdown w (persistent_attributes hi) now) as [l|e] eqn:Hc.
      * rewrite (handle_online w hi initial_state zone now l Hz Hn Hc).
        cbn. split; [reflexivity|]. split; [reflexivity|].
        split; [discriminate|].
        destruct (supports_apl hi); [right | left; reflexivity].
        split; [reflexivity|].
        destruct (countdown_inv w _ now l Hc) as (Hnow & d0 & Hm & Hd0 & Hnext).
        destruct (countdown_runs w _ now d0 (next_birthday l) (month_index l)
                    (current_year l) Hnow Hm Hd0 Hnext)
          as (l' & Hl' & _ & _ & _ & _ & _ & _ & _ & _ & F9).
        rewrite Hc in Hl'. injection Hl' as <-.
        rewrite F9. eexists. reflexivity.
      * rewrite (handle_online_raise w hi initial_state zone now e Hz Hn Hc).
        cbn. split; reflexivity.
    + unfold handle, mbind, try_except, requests_get, lift.
      rewrite Hz. cbn. rewrite Hn. cbn. split; reflexivity.
  - rewrite (handle_offline w hi initial_state e Hz).
    cbn. split; [reflexivity|]. split; [reflexivity|].
    split; [discriminate | left; reflexivity].
Qed.

Section Handled.

Variable sw : SkillWorld.
Variable env : RequestEnvelope.
Variable b : attributes.

Ltac quiet := split; [left; reflexivity | split; left; reflexivity].

Lemma handled_launch :
  handled sw env b (lift_M (LaunchRequestHandler.handle (world sw) env) (loaded b)).
Proof.
  unfold handled, effects, LaunchRequestHandler.handle, show.
  destruct (alexa_presentation_apl env) eqn:E; cbn; rewrite ?E.
  - split; [|split; [reflexivity | discriminate]].
    split; [right; split; [reflexivity | eexists; reflexivity]|].
    split; left; reflexivity.
  - split; [quiet | split; [reflexivity | discriminate]].
Qed.

Lemma handled_help :
  handled sw env b (lift_M (HelpIntentHandler.handle (world sw) env) (loaded b)).
Proof.
  unfold handled, effects, HelpIntentHandler.handle, show.
  destruct (alexa_presentation_apl env) eqn:E; cbn; rewrite ?E.
  - split; [|split; [reflexivity | discriminate]].
    split; [right; split; [reflexivity | eexists; reflexivity]|].
    split; left; reflexivity.
  - split; [quiet | split; [reflexivity | discriminate]].
Qed.

Lemma handled_cancel_or_stop :
  handled sw env b
          (lift_M (CancelOrStopIntentHandler.handle (world sw) env) (loaded b)).
Proof.
  unfold handled, effects, CancelOrStopIntentHandler.handle, show.
  destruct (alexa_presentation_apl env) eqn:E; cbn; rewrite ?E.
  - split; [|split; [reflexivity | discriminate]].
    split; [right; split; [reflexivity | eexists; reflexivity]|].
    split; left; reflexivity.
  - split; [quiet | split; [reflexivity | discriminate]].
Qed.

Lemma handled_fallback :
  handled sw env b (FallbackIntentHandler.handle env (loaded b)).
Proof.
  unfold handled, effects. cbn.
  split; [quiet | split; [reflexivity | discriminate]].
Qed.

Lemma handled_session_ended :
  SessionEndedRequestHandler.can_handle env = true ->
  handled sw env b (lift_M (SessionEndedRequestHandler.handle env) (loaded b)).
Proof.
  intros H. unfold handled, effects. cbn.
  split; [quiet | split; [reflexivity|]].
  intros _. apply String.eqb_eq. exact H.
Qed.

Lemma handled_reflector :
  handled sw env b (IntentReflectorHandler.handle env (loaded b)).
Proof.
  unfold handled, effects, IntentReflectorHandler.handle,
    IntentReflectorHandler.get_intent_name.
  destruct (request env); cbn;
    (split; [quiet | split; [reflexivity | try discriminate; reflexivity]]).
Qed.

Lemma handled_capture :
  CaptureBirthdayIntentHandler.can_handle env = true ->
  handled sw env b (CaptureBirthdayIntentHandler.handle sw env (loaded b)).
Proof.
  intros Hcan.
  unfold handled, effects, CaptureBirthdayIntentHandler.handle, show, getitem,
    kbind, save_persistent_attributes.
  destruct (request env) as [|name [slots|]| |]; cbn;
    try (split; [quiet | split; reflexivity]).
  destruct (lookup "year" slots) as [y|]; cbn;
    try (split; [quiet | split; reflexivity]).
  destruct (lookup "month" slots) as [m|]; cbn;
    try (split; [quiet | split; reflexivity]).
  destruct (lookup "day" slots) as [d|]; cbn;
    try (split; [quiet | split; reflexivity]).
  destruct (s3_up sw); cbn;
    try (split; [quiet | split; reflexivity]).
  destruct (alexa_presentation_apl env) eqn:E; cbn; rewrite ?E.
  - split; [|split; [reflexivity | discriminate]].
    split; [right; split; [reflexivity | eexists; reflexivity]|].
    split; [left; reflexivity|].
    right. split; [exact Hcan|]. exists y, m, d. reflexivity.
  - split; [|split; [reflexivity | discriminate]].
    split; [left; reflexivity|]. split; [left; reflexivity|].
    right. split; [exact Hcan|]. exists y, m, d. reflexivity.
Qed.

End Handled.

Section HandledBirthday.

Variable sw : SkillWorld.
Variable env : RequestEnvelope.
Variable b : attributes.

Hypothesis Hlaunch : is_request_type "LaunchRequest" env = true.
Hypothesis Hhas : has_birthday b = true.

Ltac silent := split; [left; reflexivity | split; left; reflexivity].

(** The handler on a birthday that is read. *)
Lemma handled_birthday_read (r : BirthRecord) :
  handled sw env b
    (lift_M (handle (world sw) (input_of env r)) (loaded b)).
Proof.
  pose proof (handle_outcome (world sw) (input_of env r)) as (Hreq & Hout).
  unfold lift_M. cbn [handler_state loaded].
  destruct (handle (world sw) (input_of env r) initial_state) as [[resp|e] s].
  - cbn [fst snd] in *. destruct Hout as (-> & Hs & Hd).
    unfold handled, effects. cbn.
    split; [|split; [reflexivity | intros H; contradiction]].
    split; [exact Hd|].
    split; [|left; reflexivity].
    right. split; [exact Hlaunch|]. split; [exact Hhas | exact Hreq].
  - cbn [fst snd] in *. unfold handled, effects. cbn. rewrite Hout. cbn.
    split; [|split; reflexivity].
    split; [left; reflexivity|].
    split; [|left; reflexivity].
    right. split; [exact Hlaunch|]. split; [exact Hhas | exact Hreq].
Qed.

Lemma handled_without_month :
  handled sw env b
    (HasBirthdayLaunchRequest.handle_without_month (world sw) env (loaded b)).
Proof.
  unfold HasBirthdayLaunchRequest.handle_without_month, kbind, lift_M,
    try_except, mbind, requests_get, lift.
  cbn [handler_state loaded].
  destruct (requests_get_json (world sw) _ _) as [zone|e]; cbn.
  - destruct (datetime_now (world sw) zone) as [now|e]; cbn.
    + destruct (Datetime.new _ _ _); cbn;
        (split; [|split; reflexivity]);
        (split; [left; reflexivity|]);
        (split; [|left; reflexivity]);
        right; (split; [exact Hlaunch|]); (split; [exact Hhas | reflexivity]).
    + (split; [|split; reflexivity]);
        (split; [left; reflexivity|]);
        (split; [|left; reflexivity]);
        right; (split; [exact Hlaunch|]); (split; [exact Hhas | reflexivity]).
  - split; [|split; [reflexivity | discriminate]].
    split; [left; reflexivity|].
    split; [|left; reflexivity].
    right. split; [exact Hlaunch|]. split; [exact Hhas | reflexivity].
Qed.

Lemma handled_has_birthday :
  handled sw env b (HasBirthdayLaunchRequest.handle sw env (loaded b)).
Proof.
  unfold HasBirthdayLaunchRequest.handle, kbind, getitem,
    get_persistent_attributes.
  cbn [cached loaded].
  destruct (lookup "year" b) as [y|]; cbn [kret kfault];
    [|split; [silent | split; reflexivity]].
  destruct (py_int sw y) as [yy|f];
    [|split; [silent | split; reflexivity]].
  destruct (lookup "month" b) as [m|]; cbn [kret kfault];
    [|split; [silent | split; reflexivity]].
  destruct (lookup "day" b) as [d|]; cbn [kret kfault];
    [|split; [silent | split; reflexivity]].
  destruct (py_int sw d) as [dd|f];
    [|split; [silent | split; reflexivity]].
  destruct m as [m|].
  - apply (handled_birthday_read
             {| birth_year := yy; birth_month := m; birth_day := dd |}).
  - apply handled_without_month.
Qed.

End HandledBirthday.

Lemma handled_answered (sw : SkillWorld) (env : RequestEnvelope)
      (b : attributes) (out : fallible Response * Skill) :
  s3_up sw = true ->
  handled sw env b out ->
  answered sw env b
    (match out with
     | (Done r, k) => (Done r, k)
     | (Fault f, k) => exception_handle f k
     end).
Proof.
  intros Hup. destruct out as [[r|f] k]. cbn.
  - intros (He & Hr & Hs). split; [exact He|].
    exists r. split; [reflexivity|]. split; [exact Hr|]. auto.
  - intros (He & _ & Hd). apply exception_answers; assumption.
Qed.

(** Every request is answered. *)
Lemma lambda_handler_answered (sw : SkillWorld) (env : RequestEnvelope)
      (b : attributes) :
  answered sw env b (lambda_handler sw env b).
Proof.
  unfold lambda_handler.
  destruct (s3_up sw) eqn:Hup.
  - apply (handled_answered sw env b _ Hup).
    rewrite (dispatch_loaded sw env b Hup).
    destruct (has_birthday b && is_request_type "LaunchRequest" env) eqn:E1.
    { apply andb_prop in E1. destruct E1 as [E1 E2].
      apply handled_has_birthday; assumption. }
    destruct (LaunchRequestHandler.can_handle env); [apply handled_launch|].
    destruct (CaptureBirthdayIntentHandler.can_handle env) eqn:E3;
      [apply handled_capture; exact E3|].
    destruct (HelpIntentHandler.can_handle env); [apply handled_help|].
    destruct (CancelOrStopIntentHandler.can_handle env);
      [apply handled_cancel_or_stop|].
    destruct (FallbackIntentHandler.can_handle env); [apply handled_fallback|].
    destruct (SessionEndedRequestHandler.can_handle env) eqn:E7;
      [apply handled_session_ended; exact E7|].
    destruct (IntentReflectorHandler.can_handle env); [apply handled_reflector|].
    split; [split; [left; reflexivity | split; left; reflexivity]
           | split; reflexivity].
  - assert (dispatch_request request_handlers sw env (fresh b)
            = (Fault PersistenceException, fresh b)) as ->.
    { unfold request_handlers.
      cbn [dispatch_request handler_can_handle handler_handle].
      unfold kbind at 1.
      unfold HasBirthdayLaunchRequest.can_handle, kbind,
        get_persistent_attributes, fresh. cbn [cached]. rewrite Hup.
      reflexivity. }
    split; [split; [left; reflexivity | split; left; reflexivity]|].
    eexists. split; [reflexivity|]. split; [reflexivity | discriminate].
Qed.

(** What the handler says when it returns. *)
Lemma handle_speech (w : World) (hi : HandlerInput) (r : Response) (s : State) :
  handle w hi initial_state = (Ok r, s) ->
  speech r = Some connection_problem
  \/ exists now l,
      countdown w (persistent_attributes hi) now = Ok l
      /\ speech r = Some (speak_output l).
Proof.
  destruct (requests_get_json w (settings_url hi) (settings_headers hi))
    as [zone|e] eqn:Hz.
  - destruct (datetime_now w zone) as [now|e] eqn:Hn.
    + destruct (countdown w (persistent_attributes hi) now) as [l|e] eqn:Hc.
      * rewrite (handle_online w hi initial_state zone now l Hz Hn Hc).
        cbv zeta. intros H. injection H as <- _.
        right. exists now, l. split; [exact Hc | reflexivity].
      * rewrite (handle_online_raise w hi initial_state zone now e Hz Hn Hc).
        discriminate.
    + unfold handle, mbind, try_except, requests_get, lift.
      rewrite Hz. cbn. rewrite Hn. cbn. discriminate.
  - rewrite (handle_offline w hi initial_state e Hz).
    intros H. injection H as <- _. left. reflexivity.
Qed.

(** The phrase of a countdown begins with "Happy " or with "Welcome ". *)
Lemma speak_output_head (w : World) (r : BirthRecord)
      (now : Datetime.datetime) (l : Locals) :
  countdown w r now = Ok l ->
  exists rest,
    speak_output l = "Happy " ++ rest \/ speak_output l = "Welcome " ++ rest.
Proof.
  intros H. destruct (speak_output_cases w r now l H) as (H1 & Hd & H0).
  destruct (diff_days l) as [d|].
  - destruct (Z.eq_dec d 1) as [-> | Hne].
    + rewrite (H1 eq_refl). eexists. right. reflexivity.
    + rewrite (Hd d eq_refl Hne). eexists. right. reflexivity.
  - rewrite (H0 eq_refl). eexists. left. reflexivity.
Qed.

(** The launch of the skill on a birthday that is read: the handler, and
    the exception handler on what it raises. *)
Lemma launch_read (sw : SkillWorld) (env : RequestEnvelope) (b : attributes)
      (r : BirthRecord) :
  heard (match lift_M (handle (world sw) (input_of env r)) (loaded b) with
         | (Done resp, k) => (Done resp, k)
         | (Fault f, k) => exception_handle f k
         end)
  = spoken (launch_with_birthday (world sw) (input_of env r) initial_state).
Proof.
  unfold lift_M, launch_with_birthday. cbn [handler_state loaded].
  destruct (handle (world sw) (input_of env r) initial_state) as [[resp|e] s];
    reflexivity.
Qed.

Lemma route_launch (sw : SkillWorld) (env : RequestEnvelope) (b : attributes) :
  s3_up sw = true ->
  request env = LaunchRequest ->
  dispatch_request request_handlers sw env (fresh b)
  = if has_birthday b
    then HasBirthdayLaunchRequest.handle sw env (loaded b)
    else lift_M (LaunchRequestHandler.handle (world sw) env) (loaded b).
Proof.
  intros Hup Hr. rewrite (dispatch_loaded sw env b Hup).
  unfold LaunchRequestHandler.can_handle, is_request_type. rewrite Hr.
  cbn [object_type]. change ("LaunchRequest" =? "LaunchRequest")%string with true.
  rewrite andb_true_r. destruct (has_birthday b); reflexivity.
Qed.

Lemma route_intent (sw : SkillWorld) (env : RequestEnvelope) (b : attributes)
      (name : string) (slots : option attributes) :
  s3_up sw = true ->
  request env = IntentRequest name slots ->
  dispatch_request request_handlers sw env (fresh b)
  = if (name =? "CaptureBirthdayIntent")%string
    then CaptureBirthdayIntentHandler.handle sw env (loaded b)
    else if (name =? "AMAZON.HelpIntent")%string
    then lift_M (HelpIntentHandler.handle (world sw) env) (loaded b)
    else if ((name =? "AMAZON.CancelIntent") || (name =? "AMAZON.StopIntent"))%string
    then lift_M (CancelOrStopIntentHandler.handle (world sw) env) (loaded b)
    else if (name =? "AMAZON.FallbackIntent")%string
    then FallbackIntentHandler.handle env (loaded b)
    else IntentReflectorHandler.handle env (loaded b).
Proof.
  intros Hup Hr. rewrite (dispatch_loaded sw env b Hup).
  unfold LaunchRequestHandler.can_handle, CaptureBirthdayIntentHandler.can_handle,
    HelpIntentHandler.can_handle, CancelOrStopIntentHandler.can_handle,
    FallbackIntentHandler.can_handle, SessionEndedRequestHandler.can_handle,
    IntentReflectorHandler.can_handle, is_request_type, is_intent_name.
  rewrite Hr. cbn [object_type].
  change ("IntentRequest" =? "LaunchRequest")%string with false.
  change ("IntentRequest" =? "SessionEndedRequest")%string with false.
  change ("IntentRequest" =? "IntentRequest")%string with true.
  rewrite andb_false_r. reflexivity.
Qed.

(** The capture handler, slot by slot. *)
Lemma capture_runs (sw : SkillWorld) (env : RequestEnvelope) (b : attributes)
      (name : string) (slots : attributes) (y m d : option string) :
  s3_up sw = true ->
  request env = IntentRequest name (Some slots) ->
  lookup "year" slots = Some y ->
  lookup "month" slots = Some m ->
  lookup "day" slots = Some d ->
  exists r k,
    CaptureBirthdayIntentHandler.handle sw env (loaded b) = (Done r, k)
    /\ speech r
       = Some ("Thanks, I will remember that you were born " ++ format_field m
               ++ " " ++ format_field d ++ " " ++ format_field y ++ ".")
    /\ reprompt r = None
    /\ bucket k = [("year", y); ("month", m); ("day", d)].
Proof.
  intros Hup Hr Hy Hm Hd.
  unfold CaptureBirthdayIntentHandler.handle, show, getitem, kbind,
    save_persistent_attributes.
  rewrite Hr. cbn. rewrite Hy. cbn. rewrite Hm. cbn. rewrite Hd. cbn.
  rewrite Hup. cbn.
  destruct (alexa_presentation_apl env); cbn;
    eexists; eexists; (split; [reflexivity|]); repeat split; reflexivity.
Qed.

Lemma capture_stops (sw : SkillWorld) (env : RequestEnvelope) (b : attributes)
      (name : string) (slots : attributes) :
  request env = IntentRequest name (Some slots) ->
  lookup "year" slots = None \/ lookup "month" slots = None
  \/ lookup "day" slots = None ->
  CaptureBirthdayIntentHandler.handle sw env (loaded b)
  = (Fault KeyError, loaded b).
Proof.
  intros Hr H.
  unfold CaptureBirthdayIntentHandler.handle, getitem, kbind.
  rewrite Hr. cbn.
  destruct (lookup "year" slots); cbn; [|reflexivity].
  destruct (lookup "month" slots); cbn; [|reflexivity].
  destruct (lookup "day" slots); cbn; [|reflexivity].
  destruct H as [H | [H | H]]; discriminate.
Qed.

(** What is heard on a launch that goes to the handler of a stored
    birthday. *)
Lemma has_birthday_heard (sw : SkillWorld) (env : RequestEnvelope)
      (b : attributes) :
  let out :=
    match HasBirthdayLaunchRequest.handle sw env (loaded b) with
    | (Done resp, k) => (Done resp, k)
    | (Fault f, k) => exception_handle f k
    end in
  heard out = Some CatchAllExceptionHandler.sorry
  \/ heard out = Some connection_problem
  \/ exists r now l,
      countdown (world sw) r now = Ok l /\ heard out = Some (speak_output l).
Proof.
  cbv zeta.
  unfold HasBirthdayLaunchRequest.handle, kbind, getitem,
    get_persistent_attributes.
  cbn [cached loaded].
  destruct (lookup "year" b) as [y|]; cbn [kret kfault]; [|left; reflexivity].
  destruct (py_int sw y) as [yy|f]; [|left; destruct f; reflexivity].
  destruct (lookup "month" b) as [m|]; cbn [kret kfault]; [|left; reflexivity].
  destruct (lookup "day" b) as [d|]; cbn [kret kfault]; [|left; reflexivity].
  destruct (py_int sw d) as [dd|f]; [|left; destruct f; reflexivity].
  destruct m as [m|].
  - change (lift_M (handle (world sw) _) (loaded b))
      with (lift_M (handle (world sw)
                      (input_of env {| birth_year := yy; birth_month := m;
                                       birth_day := dd |})) (loaded b)).
    set (hi := input_of env _).
    unfold lift_M. cbn [handler_state loaded].
    destruct (handle (world sw) hi initial_state) as [[resp|e] s] eqn:Hh.
    + destruct (handle_speech _ _ _ _ Hh) as [Hs | (now & l & Hc & Hs)].
      * right. left. exact Hs.
      * right. right. exists (persistent_attributes hi), now, l.
        split; [exact Hc | exact Hs].
    + left. reflexivity.
  - unfold HasBirthdayLaunchRequest.handle_without_month, kbind, lift_M,
      try_except, mbind, requests_get, lift.
    cbn [handler_state loaded].
    destruct (requests_get_json (world sw) _ _) as [zone|e]; cbn.
    + destruct (datetime_now (world sw) zone) as [now|e]; cbn.
      * destruct (Datetime.new _ _ _); left; reflexivity.
      * left. reflexivity.
    + right. left. reflexivity.
Qed.

(** * Properties of the whole skill *)

(** What a capture intent with its three slots leaves. *)
Lemma capture_saves_the_birthday_aux
      (sw : SkillWorld) (env : RequestEnvelope) (b slots : attributes)
      (y m d : option string) :
  s3_up sw = true ->
  request env = IntentRequest "CaptureBirthdayIntent" (Some slots) ->
  lookup "year" slots = Some y ->
  lookup "month" slots = Some m ->
  lookup "day" slots = Some d ->
  heard (lambda_handler sw env b)
  = Some ("Thanks, I will remember that you were born " ++ format_field m
          ++ " " ++ format_field d ++ " " ++ format_field y ++ ".")
  /\ bucket (snd (lambda_handler sw env b))
     = [("year", y); ("month", m); ("day", d)].
Proof.
  intros Hup Hr Hy Hm Hd. unfold lambda_handler.
  rewrite (route_intent sw env b _ _ Hup Hr).
  change ("CaptureBirthdayIntent" =? "CaptureBirthdayIntent")%string with true.
  cbv iota.
  destruct (capture_runs sw env b _ slots y m d Hup Hr Hy Hm Hd)
    as (r & k & -> & Hs & _ & Hb).
  split; [exact Hs | exact Hb].
Qed.

(** X5.  A capture intent whose three slots are there, with a value or
    with [None], saves them as the three attributes of the bucket, in place
    of what the bucket held, and reads them back to the user, [None] being
    read as "None". *)
Theorem capture_saves_the_birthday
        (sw : SkillWorld) (env : RequestEnvelope) (b slots : attributes)
        (y m d : option string) :
  s3_up sw = true ->
  request env = IntentRequest "CaptureBirthdayIntent" (Some slots) ->
  lookup "year" slots = Some y ->
  lookup "month" slots = Some m ->
  lookup "day" slots = Some d ->
  heard (lambda_handler sw env b)
  = Some ("Thanks, I will remember that you were born " ++ format_field m
          ++ " " ++ format_field d ++ " " ++ format_field y ++ ".")
  /\ bucket (snd (lambda_handler sw env b))
     = [("year", y); ("month", m); ("day", d)].
Proof. exact (capture_saves_the_birthday_aux sw env b slots y m d). Qed.

Lemma capture_saves_the_birthday_witness :
  heard (lambda_handler (skill_on (Datetime.mk 2023 11 5) true)
           (an_envelope (IntentRequest "CaptureBirthdayIntent"
                                       (Some birthday_slots)) true)
           [("color", Some "red")])
  = Some "Thanks, I will remember that you were born November 6 2014."
  /\ bucket (snd (lambda_handler (skill_on (Datetime.mk 2023 11 5) true)
                    (an_envelope (IntentRequest "CaptureBirthdayIntent"
                                                (Some birthday_slots)) true)
                    [("color", Some "red")]))
     = birthday_slots.
Proof.
  apply (capture_saves_the_birthday
           (skill_on (Datetime.mk 2023 11 5) true)
           (an_envelope (IntentRequest "CaptureBirthdayIntent"
                                       (Some birthday_slots)) true)
           [("color", Some "red")] birthday_slots
           (Some "2014") (Some "November") (Some "6")
           eq_refl eq_refl eq_refl eq_refl eq_refl).
Defined.

(** X6.  A capture intent without slots, or without one of the slots year,
    month and day, saves nothing: the bucket stays as it was and the user
    hears the apology of the exception handler. *)
Theorem capture_without_a_slot
        (sw : SkillWorld) (env : RequestEnvelope) (b : attributes)
        (slots : option attributes) :
  s3_up sw = true ->
  request env = IntentRequest "CaptureBirthdayIntent" slots ->
  (slots = None
   \/ exists named,
       slots = Some named
       /\ (lookup "year" named = None \/ lookup "month" named = None
           \/ lookup "day" named = None)) ->
  heard (lambda_handler sw env b) = Some CatchAllExceptionHandler.sorry
  /\ bucket (snd (lambda_handler sw env b)) = b.
Proof.
  intros Hup Hr H. unfold lambda_handler.
  rewrite (route_intent sw env b _ _ Hup Hr).
  change ("CaptureBirthdayIntent" =? "CaptureBirthdayIntent")%string with true.
  cbv iota.
  destruct H as [-> | (named & -> & H)].
  - unfold CaptureBirthdayIntentHandler.handle, kbind. rewrite Hr.
    split; reflexivity.
  - rewrite (capture_stops sw env b _ named Hr H). split; reflexivity.
Qed.

Lemma capture_without_a_slot_witness :
  heard (lambda_handler (skill_on (Datetime.mk 2023 11 5) true)
           (an_envelope (IntentRequest "CaptureBirthdayIntent"
                           (Some [("year", Some "2014"); ("day", Some "6")]))
                        true)
           birthday_slots)
  = Some CatchAllExceptionHandler.sorry
  /\ bucket (snd (lambda_handler (skill_on (Datetime.mk 2023 11 5) true)
                    (an_envelope (IntentRequest "CaptureBirthdayIntent"
                                    (Some [("year", Some "2014");
                                           ("day", Some "6")])) true)
                    birthday_slots))
     = birthday_slots.
Proof.
  apply (capture_without_a_slot
           (skill_on (Datetime.mk 2023 11 5) true)
           (an_envelope (IntentRequest "CaptureBirthdayIntent"
                           (Some [("year", Some "2014"); ("day", Some "6")]))
                        true)
           birthday_slots _ eq_refl eq_refl).
  right. eexists. split; [reflexivity|]. right. left. reflexivity.
Defined.

(** X7.  From a capture to the next launch.  Once a capture intent has
    saved a year, a month and a day, a launch is served by the handler of
    the stored birthday: when [int] reads the year and the day, the user
    hears what that handler says of this birthday, and so the phrase of the
    countdown when the time zone is resolved; the launch leaves the bucket
    as the capture left it. *)
Theorem birthday_round_trip
        (sw : SkillWorld) (capture launch : RequestEnvelope)
        (b slots : attributes) (y d : option string) (m : string) (yy dd : Z) :
  s3_up sw = true ->
  request capture = IntentRequest "CaptureBirthdayIntent" (Some slots) ->
  lookup "year" slots = Some y ->
  lookup "month" slots = Some (Some m) ->
  lookup "day" slots = Some d ->
  py_int sw y = Done yy ->
  py_int sw d = Done dd ->
  request launch = LaunchRequest ->
  let saved := bucket (snd (lambda_handler sw capture b)) in
  let hi := input_of launch (born yy m dd) in
  heard (lambda_handler sw launch saved)
  = spoken (launch_with_birthday (world sw) hi initial_state)
  /\ (forall zone now l,
         requests_get_json (world sw) (settings_url hi) (settings_headers hi)
         = Ok zone ->
         datetime_now (world sw) zone = Ok now ->
         countdown (world sw) (born yy m dd) now = Ok l ->
         heard (lambda_handler sw launch saved) = Some (speak_output l))
  /\ bucket (snd (lambda_handler sw launch saved)) = saved.
Proof.
  intros Hup Hc Hy Hm Hd Hyy Hdd Hl. cbv zeta.
  destruct (capture_saves_the_birthday_aux sw capture b slots y (Some m) d
              Hup Hc Hy Hm Hd) as [_ ->].
  assert (lambda_handler sw launch [("year", y); ("month", Some m); ("day", d)]
          = match lift_M (handle (world sw) (input_of launch (born yy m dd)))
                    (loaded [("year", y); ("month", Some m); ("day", d)]) with
            | (Done resp, k) => (Done resp, k)
            | (Fault f, k) => exception_handle f k
            end) as Hrun.
  { unfold lambda_handler. rewrite (route_launch sw launch _ Hup Hl).
    change (has_birthday [("year", y); ("month", Some m); ("day", d)]) with true.
    cbv iota.
    unfold HasBirthdayLaunchRequest.handle, kbind, getitem,
      get_persistent_attributes.
    cbn [cached loaded].
    change (lookup "year" [("year", y); ("month", Some m); ("day", d)])
      with (Some y).
    change (lookup "month" [("year", y); ("month", Some m); ("day", d)])
      with (Some (Some m)).
    change (lookup "day" [("year", y); ("month", Some m); ("day", d)])
      with (Some d).
    cbn [kret]. rewrite Hyy, Hdd. reflexivity. }
  assert (heard (lambda_handler sw launch
                   [("year", y); ("month", Some m); ("day", d)])
          = spoken (launch_with_birthday (world sw)
                      (input_of launch (born yy m dd)) initial_state)) as Hheard
      by (rewrite Hrun; apply launch_read).
  split; [exact Hheard|]. split.
  - intros zone now l Hz Hn Hcd. rewrite Hheard.
    unfold launch_with_birthday.
    rewrite (handle_online (world sw) _ initial_state zone now l Hz Hn Hcd).
    reflexivity.
  - rewrite Hrun. unfold lift_M. cbn [handler_state loaded].
    destruct (handle (world sw) (input_of launch (born yy m dd)) initial_state)
      as [[resp|e] s]; [reflexivity|].
    destruct e; reflexivity.
Qed.

Lemma birthday_round_trip_witness :
  heard (lambda_handler (skill_on (Datetime.mk 2023 11 5) true)
           (an_envelope LaunchRequest true)
           (bucket (snd (lambda_handler
                           (skill_on (Datetime.mk 2023 11 5) true)
                           (an_envelope (IntentRequest "CaptureBirthdayIntent"
                                           (Some birthday_slots)) true)
                           []))))
  = Some "Welcome back. It looks like there is 1 day until your 9th birthday".
Proof.
  apply (proj1 (proj2 (birthday_round_trip
                         (skill_on (Datetime.mk 2023 11 5) true)
                         (an_envelope (IntentRequest "CaptureBirthdayIntent"
                                         (Some birthday_slots)) true)
                         (an_envelope LaunchRequest true)
                         [] birthday_slots (Some "2014") (Some "6") "November"
                         2014 6
                         eq_refl eq_refl eq_refl eq_refl eq_refl eq_refl eq_refl
                         eq_refl))
               (JString "America/Los_Angeles") (Datetime.mk 2023 11 5) _
               eq_refl eq_refl eq_refl).
Defined.

(** X8.  On a launch, the skill asks for the birthday exactly when one of
    the attributes year, month and day is missing from the bucket: then it
    greets, asks, and sends no request; with the three attributes it never
    says the greeting. *)
Theorem launch_asks_for_the_birthday
        (sw : SkillWorld) (env : RequestEnvelope) (b : attributes) :
  s3_up sw = true ->
  request env = LaunchRequest ->
  (has_birthday b = false ->
   fst (lambda_handler sw env b)
   = Done {| speech := Some "Hello! This is Cake Time. What is your birthday?";
             reprompt := Some "I was born Nov. 6th, 2014. When were you born?";
             directives :=
               if alexa_presentation_apl env
               then [apl_directive (world sw) "launchDataSources.json"]
               else [] |}
   /\ requests_sent (handler_state (snd (lambda_handler sw env b))) = [])
  /\ (has_birthday b = true ->
      heard (lambda_handler sw env b)
      <> Some "Hello! This is Cake Time. What is your birthday?").
Proof.
  intros Hup Hr. unfold lambda_handler.
  rewrite (route_launch sw env b Hup Hr).
  split; intros Hb; rewrite Hb.
  - unfold LaunchRequestHandler.handle, show.
    destruct (alexa_presentation_apl env); split; reflexivity.
  - destruct (has_birthday_heard sw env b) as [H | [H | (r & now & l & Hc & H)]];
      cbv zeta in H; rewrite H; try discriminate.
    destruct (speak_output_head _ _ _ _ Hc) as (rest & [-> | ->]);
      discriminate.
Qed.

Lemma launch_asks_for_the_birthday_witness :
  heard (lambda_handler (skill_on (Datetime.mk 2023 11 5) true)
           (an_envelope LaunchRequest true) birthday_slots)
  <> Some "Hello! This is Cake Time. What is your birthday?".
Proof.
  apply (proj2 (launch_asks_for_the_birthday
                  (skill_on (Datetime.mk 2023 11 5) true)
                  (an_envelope LaunchRequest true) birthday_slots
                  eq_refl eq_refl)).
  reflexivity.
Defined.

(** X9.  A LaunchRequest, an IntentRequest or a SessionEndedRequest in
    the handler chain gets a response that says something, the sentence of
    its handler or the apology of the exception handler, with one
    exception: the response to a SessionEndedRequest served with the bucket
    in reach says nothing. *)
Theorem chain_requests_are_answered
        (sw : SkillWorld) (env : RequestEnvelope) (b : attributes) :
  request env = LaunchRequest
  \/ (exists name slots, request env = IntentRequest name slots)
  \/ request env = SessionEndedRequest ->
  exists r,
    fst (lambda_handler sw env b) = Done r
    /\ (speech r = None
        <-> request env = SessionEndedRequest /\ s3_up sw = true).
Proof.
  intros Hreq.
  destruct (lambda_handler_answered sw env b) as (_ & r & Hr & _ & Hs).
  exists r. split; [exact Hr|]. split.
  - intros Hn. destruct (Hs Hn) as [Ht Hup]. split; [|exact Hup].
    destruct Hreq as [H | [(name & slots & H) | H]];
      [rewrite H in Ht; discriminate Ht
      | rewrite H in Ht; discriminate Ht
      | exact H].
  - intros [Hse Hup].
    assert (fst (lambda_handler sw env b) = Done empty_response) as Hrun.
    { unfold lambda_handler. rewrite (dispatch_loaded sw env b Hup).
      unfold LaunchRequestHandler.can_handle,
        CaptureBirthdayIntentHandler.can_handle,
        HelpIntentHandler.can_handle, CancelOrStopIntentHandler.can_handle,
        FallbackIntentHandler.can_handle,
        SessionEndedRequestHandler.can_handle,
        is_request_type, is_intent_name.
      rewrite Hse. cbn [object_type orb].
      change ("SessionEndedRequest" =? "LaunchRequest")%string with false.
      change ("SessionEndedRequest" =? "SessionEndedRequest")%string with true.
      rewrite andb_false_r. reflexivity. }
    rewrite Hrun in Hr. injection Hr as <-. reflexivity.
Qed.

Lemma chain_requests_are_answered_witness :
  exists r,
    fst (lambda_handler (skill_on (Datetime.mk 2023 11 5) true)
           (an_envelope SessionEndedRequest true) birthday_slots) = Done r
    /\ (speech r = None
        <-> SessionEndedRequest = SessionEndedRequest /\ true = true).
Proof.
  apply (chain_requests_are_answered
           (skill_on (Datetime.mk 2023 11 5) true)
           (an_envelope SessionEndedRequest true) birthday_slots).
  right. right. reflexivity.
Defined.

(** X10.  A response carries a directive only for a device with a screen,
    and then at most one, which renders the launch document. *)
Theorem directive_only_with_a_screen
        (sw : SkillWorld) (env : RequestEnvelope) (b : attributes) (r : Response) :
  fst (lambda_handler sw env b) = Done r ->
  (alexa_presentation_apl env = false -> directives r = [])
  /\ (List.length (directives r) <= 1)%nat
  /\ (forall d, In d (directives r) ->
                token d = "pagerToken"
                /\ document d
                   = _load_apl_document (world sw) "launchDocument.json").
Proof.
  intros H.
  destruct (lambda_handler_answered sw env b)
    as ((Hd & _) & r' & Hr & -> & _).
  rewrite Hr in H. injection H as <-.
  destruct Hd as [-> | (Hapl & data & ->)].
  - split; [reflexivity|]. split; [cbn; lia|]. intros d [].
  - split; [rewrite Hapl; discriminate|]. split; [cbn; lia|].
    intros d [<- | []]. split; reflexivity.
Qed.

Lemma directive_only_with_a_screen_witness :
  directives
    {| speech := Some "Hello! This is Cake Time. What is your birthday?";
       reprompt := Some "I was born Nov. 6th, 2014. When were you born?";
       directives := [] |} = [].
Proof.
  apply (proj1 (directive_only_with_a_screen
                  (skill_on (Datetime.mk 2023 11 5) true)
                  (an_envelope LaunchRequest false) [] _ eq_refl)).
  reflexivity.
Defined.

(** X11.  A request makes the skill send at most one request of its own:
    none, or, on a launch with the three attributes in the bucket, the one
    to the Settings API for the time zone of the device. *)
Theorem at_most_one_request
        (sw : SkillWorld) (env : RequestEnvelope) (b : attributes) :
  requests_sent (handler_state (snd (lambda_handler sw env b))) = []
  \/ (is_request_type "LaunchRequest" env = true
      /\ has_birthday b = true
      /\ requests_sent (handler_state (snd (lambda_handler sw env b)))
         = [settings_request env]).
Proof.
  destruct (lambda_handler_answered sw env b) as ((_ & Hq & _) & _).
  exact Hq.
Qed.

(** X12.  Only a capture intent changes the bucket: after any other request
    the bucket is as it was, and after a capture intent it is as it was or
    holds a year, a month and a day and nothing else. *)
Theorem bucket_changes_on_capture_only
        (sw : SkillWorld) (env : RequestEnvelope) (b : attributes) :
  (is_intent_name "CaptureBirthdayIntent" env = false ->
   bucket (snd (lambda_handler sw env b)) = b)
  /\ (bucket (snd (lambda_handler sw env b)) = b
      \/ exists y m d,
          bucket (snd (lambda_handler sw env b))
          = [("year", y); ("month", m); ("day", d)]).
Proof.
  destruct (lambda_handler_answered sw env b) as ((_ & _ & Hb) & _).
  split.
  - intros Hn. destruct Hb as [Hb | (Hc & _)]; [exact Hb | congruence].
  - destruct Hb as [Hb | (_ & Hb)]; [left | right]; exact Hb.
Qed.

Lemma bucket_changes_on_capture_only_witness :
  bucket (snd (lambda_handler (skill_on (Datetime.mk 2023 11 5) true)
                 (an_envelope (IntentRequest "AMAZON.HelpIntent" None) true)
                 birthday_slots))
  = birthday_slots.
Proof.
  apply (proj1 (bucket_changes_on_capture_only
                  (skill_on (Datetime.mk 2023 11 5) true)
                  (an_envelope (IntentRequest "AMAZON.HelpIntent" None) true)
                  birthday_slots)).
  reflexivity.
Defined.

(** X13.  When the bucket cannot be reached, every request, of whatever
    type, ends with the apology of the exception handler: the first handler
    of the chain reads the attributes before it looks at the request.
    Nothing is sent and the bucket is not written. *)
Theorem bucket_out_of_reach
        (sw : SkillWorld) (env : RequestEnvelope) (b : attributes) :
  s3_up sw = false ->
  lambda_handler sw env b
  = (Done {| speech := Some CatchAllExceptionHandler.sorry;
             reprompt := None; directives := [] |},
     {| handler_state :=
          {| response_builder :=
               {| speech := Some CatchAllExceptionHandler.sorry;
                  reprompt := None; directives := [] |};
             requests_sent := [];
             log := [] |};
        cached := None;
        bucket := b;
        skill_log := [Error PersistenceException] |}).
Proof.
  intros Hup. unfold lambda_handler, request_handlers.
  cbn [dispatch_request handler_can_handle handler_handle].
  unfold kbind at 1.
  unfold HasBirthdayLaunchRequest.can_handle, kbind,
    get_persistent_attributes, fresh.
  cbn [cached]. rewrite Hup. reflexivity.
Qed.

Lemma bucket_out_of_reach_witness :
  heard (lambda_handler (skill_on (Datetime.mk 2023 11 5) false)
           (an_envelope (IntentRequest "AMAZON.HelpIntent" None) true)
           birthday_slots)
  = Some CatchAllExceptionHandler.sorry.
Proof.
  rewrite (bucket_out_of_reach
             (skill_on (Datetime.mk 2023 11 5) false)
             (an_envelope (IntentRequest "AMAZON.HelpIntent" None) true)
             birthday_slots eq_refl).
  reflexivity.
Defined.

(** X14.  The intents.  The reflector, the last handler of the chain,
    answers the intents that no other handler takes, and only those: an
    intent that is none of the capture, help, cancel, stop and fallback
    intents is answered by its name, "You just triggered" and the name; the
    help intent by the help sentence and the question for the birthday, the
    cancel and stop intents by "later dude!", the fallback intent by its
    sentence, and none of the five by the sentence of the reflector. *)
Theorem intents_and_the_reflector
        (sw : SkillWorld) (env : RequestEnvelope) (b : attributes)
        (name : string) (slots : option attributes) :
  s3_up sw = true ->
  request env = IntentRequest name slots ->
  (~ In name custom_intents ->
   heard (lambda_handler sw env b)
   = Some ("You just triggered " ++ name ++ "."))
  /\ (name = "AMAZON.HelpIntent" ->
      exists r,
        fst (lambda_handler sw env b) = Done r
        /\ speech r
           = Some "If you accidentally entered the wrong birthday, you can change it by saying,                         'Alexa, tell Cake Time I was born on, and then say the month day and year of your birthday."
        /\ reprompt r = Some "I was born Nov. 6th, 2014. When were you born?")
  /\ (name = "AMAZON.CancelIntent" \/ name = "AMAZON.StopIntent" ->
      heard (lambda_handler sw env b) = Some "later dude!")
  /\ (name = "AMAZON.FallbackIntent" ->
      heard (lambda_handler sw env b)
      = Some "Hmm, I'm not sure. You can say Hello or Help. What would you like to do?")
  /\ (In name custom_intents ->
      heard (lambda_handler sw env b)
      <> Some ("You just triggered " ++ name ++ ".")).
Proof.
  intros Hup Hr. unfold lambda_handler.
  rewrite (route_intent sw env b name slots Hup Hr).
  split; [|split; [|split; [|split]]].
  - intros Hn. unfold custom_intents in Hn. cbn [In] in Hn.
    destruct (String.eqb_spec name "CaptureBirthdayIntent");
      [exfalso; apply Hn; subst; auto 10|].
    destruct (String.eqb_spec name "AMAZON.HelpIntent");
      [exfalso; apply Hn; subst; auto 10|].
    destruct (String.eqb_spec name "AMAZON.CancelIntent");
      [exfalso; apply Hn; subst; auto 10|].
    destruct (String.eqb_spec name "AMAZON.StopIntent");
      [exfalso; apply Hn; subst; auto 10|].
    destruct (String.eqb_spec name "AMAZON.FallbackIntent");
      [exfalso; apply Hn; subst; auto 10|].
    cbn [orb].
    unfold IntentReflectorHandler.handle,
      IntentReflectorHandler.get_intent_name, kbind.
    rewrite Hr. reflexivity.
  - intros ->. cbn -[HelpIntentHandler.handle].
    unfold HelpIntentHandler.handle, show.
    destruct (alexa_presentation_apl env); eexists;
      (split; [reflexivity|]); split; reflexivity.
  - intros [-> | ->]; cbn -[CancelOrStopIntentHandler.handle];
      unfold CancelOrStopIntentHandler.handle, show;
      destruct (alexa_presentation_apl env); reflexivity.
  - intros ->. reflexivity.
  - intros Hin. unfold custom_intents in Hin. cbn [In] in Hin.
    destruct Hin as [<- | [<- | [<- | [<- | [<- | []]]]]].
    + cbn -[CaptureBirthdayIntentHandler.handle].
      unfold CaptureBirthdayIntentHandler.handle, show, getitem, kbind,
        save_persistent_attributes.
      rewrite Hr. cbn.
      destruct slots as [slots|]; cbn; [|discriminate].
      destruct (lookup "year" slots); cbn; [|discriminate].
      destruct (lookup "month" slots); cbn; [|discriminate].
      destruct (lookup "day" slots); cbn; [|discriminate].
      rewrite Hup. cbn.
      destruct (alexa_presentation_apl env); cbn; discriminate.
    + cbn -[HelpIntentHandler.handle]. unfold HelpIntentHandler.handle, show.
      destruct (alexa_presentation_apl env); cbn; discriminate.
    + cbn -[CancelOrStopIntentHandler.handle].
      unfold CancelOrStopIntentHandler.handle, show.
      destruct (alexa_presentation_apl env); cbn; discriminate.
    + cbn -[CancelOrStopIntentHandler.handle].
      unfold CancelOrStopIntentHandler.handle, show.
      destruct (alexa_presentation_apl env); cbn; discriminate.
    + cbn. discriminate.
Qed.

Lemma intents_and_the_reflector_witness :
  heard (lambda_handler (skill_on (Datetime.mk 2023 11 5) true)
           (an_envelope (IntentRequest "AMAZON.YesIntent" None) true) [])
  = Some ("You just triggered " ++ "AMAZON.YesIntent" ++ ".").
Proof.
  apply (proj1 (intents_and_the_reflector
                  (skill_on (Datetime.mk 2023 11 5) true)
                  (an_envelope (IntentRequest "AMAZON.YesIntent" None) true)
                  [] "AMAZON.YesIntent" None eq_refl eq_refl)).
  cbn. intros H. repeat (destruct H as [H | H]; [discriminate H|]). exact H.
Defined.

(** X15.  A request whose type is none of LaunchRequest, IntentRequest and
    SessionEndedRequest finds no handler: the dispatcher raises, the
    exception handler logs it and the user hears the apology. *)
Theorem request_without_a_handler
        (sw : SkillWorld) (env : RequestEnvelope) (b : attributes)
        (type : string) :
  s3_up sw = true ->
  request env = OtherRequest type ->
  type <> "LaunchRequest" ->
  type <> "IntentRequest" ->
  type <> "SessionEndedRequest" ->
  heard (lambda_handler sw env b) = Some CatchAllExceptionHandler.sorry
  /\ skill_log (snd (lambda_handler sw env b)) = [Error DispatchException]
  /\ bucket (snd (lambda_handler sw env b)) = b.
Proof.
  intros Hup Hr H1 H2 H3. unfold lambda_handler.
  rewrite (dispatch_loaded sw env b Hup).
  unfold LaunchRequestHandler.can_handle, CaptureBirthdayIntentHandler.can_handle,
    HelpIntentHandler.can_handle, CancelOrStopIntentHandler.can_handle,
    FallbackIntentHandler.can_handle, SessionEndedRequestHandler.can_handle,
    IntentReflectorHandler.can_handle, is_request_type, is_intent_name.
  rewrite Hr. cbn [object_type orb].
  apply String.eqb_neq in H1, H2, H3. rewrite H1, H2, H3, andb_false_r.
  repeat split.
Qed.

Lemma request_without_a_handler_witness :
  heard (lambda_handler (skill_on (Datetime.mk 2023 11 5) true)
           (an_envelope (OtherRequest "System.ExceptionEncountered") true) [])
  = Some CatchAllExceptionHandler.sorry.
Proof.
  refine (proj1 (request_without_a_handler
                   (skill_on (Datetime.mk 2023 11 5) true)
                   (an_envelope (OtherRequest "System.ExceptionEncountered") true)
                   [] "System.ExceptionEncountered"
                   eq_refl eq_refl _ _ _)); discriminate.
Defined.

(** X16.  A stored year or day that [int] does not read ends the launch
    with the apology before anything is sent: the attributes are converted
    before the Settings API is asked. *)
Theorem launch_with_an_unreadable_number
        (sw : SkillWorld) (env : RequestEnvelope) (b : attributes)
        (y m d : option string) :
  s3_up sw = true ->
  request env = LaunchRequest ->
  lookup "year" b = Some y ->
  lookup "month" b = Some m ->
  lookup "day" b = Some d ->
  (exists f, py_int sw y = Fault f) \/ (exists f, py_int sw d = Fault f) ->
  heard (lambda_handler sw env b) = Some CatchAllExceptionHandler.sorry
  /\ requests_sent (handler_state (snd (lambda_handler sw env b))) = []
  /\ bucket (snd (lambda_handler sw env b)) = b.
Proof.
  intros Hup Hr Hy Hm Hd Hf. unfold lambda_handler.
  rewrite (route_launch sw env b Hup Hr).
  assert (has_birthday b = true) as ->
      by (unfold has_birthday, contains; rewrite Hy, Hm, Hd; reflexivity).
  unfold HasBirthdayLaunchRequest.handle, kbind, getitem,
    get_persistent_attributes.
  cbn [cached loaded]. rewrite Hy, Hm, Hd. cbn [kret].
  destruct (py_int sw y) as [yy|fy].
  - destruct Hf as [[f Hf] | [f Hf]]; [discriminate|].
    rewrite Hf. destruct f; repeat split.
  - destruct fy; repeat split.
Qed.

Lemma launch_with_an_unreadable_number_witness :
  heard (lambda_handler (skill_on (Datetime.mk 2023 11 5) true)
           (an_envelope LaunchRequest true)
           [("year", Some "twenty"); ("month", Some "May"); ("day", Some "6")])
  = Some CatchAllExceptionHandler.sorry.
Proof.
  refine (proj1 (launch_with_an_unreadable_number
                   (skill_on (Datetime.mk 2023 11 5) true)
                   (an_envelope LaunchRequest true)
                   [("year", Some "twenty"); ("month", Some "May");
                    ("day", Some "6")]
                   (Some "twenty") (Some "May") (Some "6")
                   eq_refl eq_refl eq_refl eq_refl eq_refl _)).
  left. eexists. reflexivity.
Defined.

(** X17.  A stored month that is [None], with a year and a day that [int]
    reads: the launch asks the Settings API first; when the call raises the
    user hears the sentence of the connection problem, and otherwise the
    handler raises where it slices the month and the user hears the
    apology.  One request is sent in both cases. *)
Theorem launch_without_a_month
        (sw : SkillWorld) (env : RequestEnvelope) (b : attributes)
        (y d : option string) (yy dd : Z) :
  s3_up sw = true ->
  request env = LaunchRequest ->
  lookup "year" b = Some y ->
  lookup "month" b = Some None ->
  lookup "day" b = Some d ->
  py_int sw y = Done yy ->
  py_int sw d = Done dd ->
  ((exists e, requests_get_json (world sw) (fst (settings_request env))
                                (snd (settings_request env)) = Raise e) ->
   heard (lambda_handler sw env b) = Some connection_problem)
  /\ ((exists zone, requests_get_json (world sw) (fst (settings_request env))
                                      (snd (settings_request env)) = Ok zone) ->
      heard (lambda_handler sw env b) = Some CatchAllExceptionHandler.sorry)
  /\ requests_sent (handler_state (snd (lambda_handler sw env b)))
     = [settings_request env].
Proof.
  intros Hup Hr Hy Hm Hd Hyy Hdd. unfold lambda_handler.
  rewrite (route_launch sw env b Hup Hr).
  assert (has_birthday b = true) as ->
      by (unfold has_birthday, contains; rewrite Hy, Hm, Hd; reflexivity).
  unfold HasBirthdayLaunchRequest.handle, kbind, getitem,
    get_persistent_attributes.
  cbn [cached loaded]. rewrite Hy, Hm, Hd. cbn [kret]. rewrite Hyy, Hdd.
  unfold HasBirthdayLaunchRequest.handle_without_month, kbind, lift_M,
    try_except, mbind, requests_get, lift, settings_request.
  cbn [handler_state loaded fst snd].
  destruct (requests_get_json (world sw) _ _) as [zone|e]; cbn.
  - split; [intros [e He]; discriminate|].
    destruct (datetime_now (world sw) zone) as [now|e]; cbn.
    + destruct (Datetime.new _ _ _); cbn; split; reflexivity.
    + destruct e; split; reflexivity.
  - split; [reflexivity|]. split; [intros [zone Hz]; discriminate | reflexivity].
Qed.

Lemma launch_without_a_month_witness :
  heard (lambda_handler (skill_on (Datetime.mk 2023 11 5) true)
           (an_envelope LaunchRequest true)
           [("year", Some "2014"); ("month", None); ("day", Some "6")])
  = Some CatchAllExceptionHandler.sorry.
Proof.
  refine (proj1 (proj2 (launch_without_a_month
                          (skill_on (Datetime.mk 2023 11 5) true)
                          (an_envelope LaunchRequest true)
                          [("year", Some "2014"); ("month", None);
                           ("day", Some "6")]
                          (Some "2014") (Some "6") 2014 6
                          eq_refl eq_refl eq_refl eq_refl eq_refl eq_refl
                          eq_refl)) _).
  eexists. reflexivity.
Defined.
